(** * Payout ingestion and filtering: a shallow embedding

  The two programs of the repository, [upload_payouts.py] (one-shot
  uploader) and [payout_dashboard.py] (interactive dashboard), are
  embedded as Rocq functions.  Python strings are byte strings
  ([string]); the string methods the programs call act on the ASCII
  range and leave every other byte alone.  Floating-point cells are
  IEEE-754 binary64 values ([spec_float] with 53 bits of precision),
  read and printed as Python's [float] and [repr] do.  What lies
  outside the programs -- the environment, the file system, the CSV
  reader, the day-first date reader and the store -- is a [world]
  the programs are run in; exceptions and [sys.exit] are results of a
  small state-and-error monad. *)

From Stdlib Require Import String Ascii List ZArith Bool Lia.
From Stdlib Require Import SpecFloat.
From Stdlib Require Sorted OrderedTypeEx Permutation.
Import ListNotations.

Local Open Scope string_scope.
Local Open Scope Z_scope.

(** ** Python string methods *)

Module PyStr.

Definition code (c : ascii) : Z := Z.of_nat (nat_of_ascii c).

(** [str.isspace] on one ASCII character: TAB..CR, FS..US and space. *)
Definition is_space (c : ascii) : bool :=
  ((9 <=? code c) && (code c <=? 13)) || ((28 <=? code c) && (code c <=? 32)).

Definition is_upper (c : ascii) : bool := (65 <=? code c) && (code c <=? 90).

Definition is_digit (c : ascii) : bool := (48 <=? code c) && (code c <=? 57).

Definition lower_char (c : ascii) : ascii :=
  if is_upper c then ascii_of_nat (nat_of_ascii c + 32) else c.

(** [s.lower()] *)
Fixpoint lower (s : string) : string :=
  match s with
  | EmptyString => EmptyString
  | String c t => String (lower_char c) (lower t)
  end.

(** [s.lstrip()] *)
Fixpoint lstrip (s : string) : string :=
  match s with
  | EmptyString => EmptyString
  | String c t => if is_space c then lstrip t else s
  end.

(** [s.rstrip()] *)
Fixpoint rstrip (s : string) : string :=
  match s with
  | EmptyString => EmptyString
  | String c t =>
      match rstrip t with
      | EmptyString => if is_space c then EmptyString else String c EmptyString
      | r => String c r
      end
  end.

(** [s.strip()] *)
Definition strip (s : string) : string := lstrip (rstrip s).

(** [s.replace(a, b)] for one-character [a] and [b]. *)
Fixpoint replace_char (a b : ascii) (s : string) : string :=
  match s with
  | EmptyString => EmptyString
  | String c t =>
      String (if Ascii.eqb c a then b else c) (replace_char a b t)
  end.

(** [s.replace(a, empty)] for a one-character [a]. *)
Fixpoint remove_char (a : ascii) (s : string) : string :=
  match s with
  | EmptyString => EmptyString
  | String c t =>
      if Ascii.eqb c a then remove_char a t else String c (remove_char a t)
  end.

(** [needle in hay] *)
Fixpoint contains (needle hay : string) : bool :=
  String.prefix needle hay
  || match hay with
     | EmptyString => false
     | String _ t => contains needle t
     end.

(** Truthiness of a string: [bool(s)]. *)
Definition truthy (s : string) : bool :=
  match s with EmptyString => false | _ => true end.

Definition digit_char (d : Z) : ascii := ascii_of_nat (Z.to_nat (48 + d)).

Fixpoint digits_of_pos (fuel : nat) (n : Z) (acc : string) : string :=
  match fuel with
  | O => acc
  | S fuel' =>
      let acc' := String (digit_char (n mod 10)) acc in
      if n / 10 =? 0 then acc' else digits_of_pos fuel' (n / 10) acc'
  end.

(** Decimal digits of a non-negative integer. *)
Definition digits (n : Z) : string :=
  digits_of_pos (S (Z.to_nat (Z.log2 n))) n EmptyString.

(** [str(n)] for an integer. *)
Definition of_int (n : Z) : string :=
  if n <? 0 then String "-" (digits (- n)) else digits n.

Fixpoint repeat_char (c : ascii) (n : nat) : string :=
  match n with
  | O => EmptyString
  | S k => String c (repeat_char c k)
  end.

Fixpoint take (n : nat) (s : string) : string :=
  match n, s with
  | S k, String c t => String c (take k t)
  | _, _ => EmptyString
  end.

Fixpoint drop (n : nat) (s : string) : string :=
  match n, s with
  | S k, String _ t => drop k t
  | _, _ => s
  end.

End PyStr.

(** ** Python floats: [float(s)] and [repr(x)] on binary64 *)

Module PyFloat.

Import PyStr.

Definition prec : Z := 53.
Definition emax : Z := 1024.

Definition pos_zero : spec_float := S754_zero false.

(** The binary64 value nearest to [(-1)^s * d * 10^e] (ties to even),
    as the correctly rounded quotient of two integers. *)
Definition of_decimal (s : bool) (d e : Z) : spec_float :=
  match d with
  | Zpos p =>
      if 0 <=? e
      then SFdiv prec emax (S754_finite s (Z.to_pos (Zpos p * 10 ^ e)) 0)
                           (S754_finite false 1 0)
      else SFdiv prec emax (S754_finite s p 0)
                           (S754_finite false (Z.to_pos (10 ^ (- e))) 0)
  | _ => S754_zero s
  end.

(** Whitespace that [float] skips at both ends (ASCII range). *)
Definition is_float_space (c : ascii) : bool :=
  ((9 <=? code c) && (code c <=? 13)) || (code c =? 32).

Fixpoint lskip (s : string) : string :=
  match s with
  | EmptyString => EmptyString
  | String c t => if is_float_space c then lskip t else s
  end.

Fixpoint rskip (s : string) : string :=
  match s with
  | EmptyString => EmptyString
  | String c t =>
      match rskip t with
      | EmptyString =>
          if is_float_space c then EmptyString else String c EmptyString
      | r => String c r
      end
  end.

(** Underscores are legal between two digits only; they are dropped
    before the number is read. *)
Fixpoint drop_underscores (prev : ascii) (s : string) : option string :=
  match s with
  | EmptyString => if Ascii.eqb prev "_" then None else Some EmptyString
  | String c t =>
      if Ascii.eqb c "_"
      then if is_digit prev then drop_underscores c t else None
      else if Ascii.eqb prev "_" && negb (is_digit c) then None
           else option_map (String c) (drop_underscores c t)
  end.

(** Reads a run of digits: its value continued from [acc], the number
    of digits read added to [n], and what follows. *)
Fixpoint scan_digits (s : string) (acc n : Z) : Z * Z * string :=
  match s with
  | String c t =>
      if is_digit c then scan_digits t (10 * acc + (code c - 48)) (n + 1)
      else (acc, n, s)
  | EmptyString => (acc, n, EmptyString)
  end.

Definition scan_sign (s : string) : bool * string :=
  match s with
  | String "-" t => (true, t)
  | String "+" t => (false, t)
  | _ => (false, s)
  end.

(** The exponent part: nothing, or [e]/[E], an optional sign and at
    least one digit, up to the end of the text. *)
Definition scan_exponent (s : string) : option Z :=
  match s with
  | EmptyString => Some 0
  | String c t =>
      if Ascii.eqb (lower_char c) "e" then
        let '(neg, u) := scan_sign t in
        match scan_digits u 0 0 with
        | (x, n, EmptyString) =>
            if 0 <? n then Some (if neg then - x else x) else None
        | _ => None
        end
      else None
  end.

(** A decimal literal without sign: digits with an optional point, at
    least one digit, and an optional exponent. *)
Definition scan_decimal (s : string) : option (Z * Z) :=
  let '(ip, ni, r) := scan_digits s 0 0 in
  let '(m, nf, r') :=
    match r with
    | String "." t => scan_digits t ip 0
    | _ => (ip, 0, r)
    end in
  if 0 <? ni + nf then
    match scan_exponent r' with
    | Some x => Some (m, x - nf)
    | None => None
    end
  else None.

(** [float(s)]; [None] stands for [ValueError]. *)
Definition of_string (s : string) : option spec_float :=
  match drop_underscores Ascii.zero s with
  | None => None
  | Some t =>
      let '(neg, body) := scan_sign (lskip (rskip t)) in
      let l := lower body in
      if String.eqb l "inf" || String.eqb l "infinity"
      then Some (S754_infinity neg)
      else if String.eqb l "nan" then Some S754_nan
      else match scan_decimal body with
           | Some (m, e) => Some (of_decimal neg m e)
           | None => None
           end
  end.

(** *** [repr]: the shortest decimal that reads back as the same value *)

(** [v >= 10^p] for [v = num / den]. *)
Definition ge_pow10 (num den p : Z) : bool :=
  if 0 <=? p then den * 10 ^ p <=? num else den <=? num * 10 ^ (- p).

Fixpoint adjust_up (fuel : nat) (num den p : Z) : Z :=
  match fuel with
  | O => p
  | S f => if ge_pow10 num den p then adjust_up f num den (p + 1) else p
  end.

Fixpoint adjust_down (fuel : nat) (num den p : Z) : Z :=
  match fuel with
  | O => p
  | S f => if ge_pow10 num den (p - 1) then p
           else adjust_down f num den (p - 1)
  end.

(** The position of the decimal point: the [p] with
    [10^(p-1) <= num/den < 10^p]. *)
Definition decimal_point (num den : Z) : Z :=
  let p0 := (Z.log2 num - Z.log2 den) * 30103 / 100000 in
  adjust_down 8 num den (adjust_up 8 num den p0).

(** [floor (num / den / 10^k)] *)
Definition scaled_floor (num den k : Z) : Z :=
  if 0 <=? k then num / (den * 10 ^ k) else (num * 10 ^ (- k)) / den.

(** Which of [lo * 10^k] and [(lo+1) * 10^k] is nearer to [num/den]. *)
Definition nearer (num den lo k : Z) : Z :=
  let l := if 0 <=? k then 2 * num else 2 * num * 10 ^ (- k) in
  let r := if 0 <=? k then (2 * lo + 1) * den * 10 ^ k
           else (2 * lo + 1) * den in
  match l ?= r with
  | Lt => lo
  | Gt => lo + 1
  | Eq => if Z.even lo then lo else lo + 1
  end.

Definition same_float (x y : spec_float) : bool :=
  match x, y with
  | S754_finite s m e, S754_finite s' m' e' =>
      Bool.eqb s s' && Pos.eqb m m' && Z.eqb e e'
  | _, _ => false
  end.

(** Tries [n], [n+1], ... significant digits and returns the first
    [(d, k)] with [d * 10^k] reading back as [m * 2^e]. *)
Fixpoint find_shortest (fuel : nat) (m : positive) (e num den p n : Z) : Z * Z :=
  let k := p - n in
  let lo := scaled_floor num den k in
  match fuel with
  | O => (lo, k)
  | S f =>
      let x := S754_finite false m e in
      let ok_lo := same_float (of_decimal false lo k) x in
      let ok_hi := same_float (of_decimal false (lo + 1) k) x in
      if ok_lo && ok_hi then (nearer num den lo k, k)
      else if ok_lo then (lo, k)
      else if ok_hi then (lo + 1, k)
      else find_shortest f m e num den p (n + 1)
  end.

Fixpoint strip_zeros (fuel : nat) (d k : Z) : Z * Z :=
  match fuel with
  | O => (d, k)
  | S f => if (d mod 10 =? 0) && negb (d =? 0)
           then strip_zeros f (d / 10) (k + 1) else (d, k)
  end.

(** The shortest digit string of [m * 2^e] and the position of its
    decimal point. *)
Definition shortest (m : positive) (e : Z) : string * Z :=
  let num := if 0 <=? e then Zpos m * 2 ^ e else Zpos m in
  let den := if 0 <=? e then 1 else 2 ^ (- e) in
  let p := decimal_point num den in
  let '(d, k) := find_shortest 17 m e num den p 1 in
  let '(d', k') := strip_zeros 20 d k in
  let ds := digits d' in
  (ds, k' + Z.of_nat (String.length ds)).

Definition two_digits (n : Z) : string :=
  if n <? 10 then String "0" (digits n) else digits n.

(** Layout of [repr]: positional when [-4 < point <= 16], otherwise
    scientific with an exponent of at least two digits. *)
Definition layout (ds : string) (point : Z) : string :=
  let n := Z.of_nat (String.length ds) in
  if (-4 <? point) && (point <=? 16) then
    if point <=? 0 then
      "0." ++ repeat_char "0" (Z.to_nat (- point)) ++ ds
    else if n <=? point then
      ds ++ repeat_char "0" (Z.to_nat (point - n)) ++ ".0"
    else take (Z.to_nat point) ds ++ "." ++ drop (Z.to_nat point) ds
  else
    let x := point - 1 in
    take 1 ds
    ++ (if 1 <? n then "." ++ drop 1 ds else EmptyString)
    ++ "e" ++ (if x <? 0 then "-" else "+") ++ two_digits (Z.abs x).

(** [repr(x)], which is also [str(x)]. *)
Definition repr (x : spec_float) : string :=
  match x with
  | S754_nan => "nan"
  | S754_infinity s => if s then "-inf" else "inf"
  | S754_zero s => if s then "-0.0" else "0.0"
  | S754_finite s m e =>
      let '(ds, point) := shortest m e in
      (if s then "-" else EmptyString) ++ layout ds point
  end.


End PyFloat.

(** ** Data frames *)

Module Pandas.

Import PyStr.

Record date := { year : Z; month_of_year : Z; day : Z }.

(** One cell of a data frame. *)
Inductive cell :=
| CNaN                       (* missing value read from a CSV *)
| CNone                      (* SQL NULL in a text column *)
| CStr (s : string)
| CInt (n : Z)
| CFloat (x : spec_float)
| CBool (b : bool)
| CDate (d : date).

Definition pad (width : nat) (s : string) : string :=
  repeat_char "0" (width - String.length s) ++ s.

(** [str(v)] of a cell value; [astype(str)] applies it to every cell. *)
Definition py_str (c : cell) : string :=
  match c with
  | CNaN => "nan"
  | CNone => "None"
  | CStr s => s
  | CInt n => of_int n
  | CFloat x => PyFloat.repr x
  | CBool b => if b then "True" else "False"
  | CDate d =>
      pad 4 (of_int (year d)) ++ "-" ++ pad 2 (of_int (month_of_year d))
      ++ "-" ++ pad 2 (of_int (day d))
  end.

Definition column := list cell.

(** A frame is its columns in order, each under its label; labels may
    repeat. *)
Definition frame := list (string * column).

Definition columns (df : frame) : list string := map fst df.

(** [len(df)] *)
Definition len (df : frame) : nat :=
  match df with
  | [] => O
  | (_, c) :: _ => List.length c
  end.

(** [k in df.columns] *)
Definition has_column (k : string) (df : frame) : bool :=
  existsb (String.eqb k) (columns df).

(** [df.columns = [f(c) for c in df.columns]] *)
Definition map_columns (f : string -> string) (df : frame) : frame :=
  map (fun lc => (f (fst lc), snd lc)) df.

(** What [df[k]] evaluates to. *)
Inductive selection :=
| Missing                       (* raises KeyError *)
| Series (c : column)           (* the label occurs once *)
| SubFrame (cs : list column).  (* the label is repeated *)

Definition getitem (df : frame) (k : string) : selection :=
  match filter (fun lc => String.eqb (fst lc) k) df with
  | [] => Missing
  | [lc] => Series (snd lc)
  | lcs => SubFrame (map snd lcs)
  end.

(** [df[k] = c]: every column labelled [k] is replaced; a new label is
    appended as the last column. *)
Definition setitem (df : frame) (k : string) (c : column) : frame :=
  if has_column k df
  then map (fun lc => if String.eqb (fst lc) k then (k, c) else lc) df
  else (df ++ [(k, c)])%list.

(** [df[k] = v] for a scalar [v], broadcast to [len(df)] rows. *)
Definition setitem_scalar (df : frame) (k : string) (v : cell) : frame :=
  setitem df k (repeat v (len df)).

(** A dict literal used with [rename] and [map]. *)
Fixpoint dict_get {V : Type} (d : list (string * V)) (k : string) : option V :=
  match d with
  | [] => None
  | (k', v) :: rest => if String.eqb k k' then Some v else dict_get rest k
  end.

(** [df.rename(columns=d)] *)
Definition rename (d : list (string * string)) (df : frame) : frame :=
  map_columns (fun l => match dict_get d l with Some l' => l' | None => l end) df.

End Pandas.

(** ** Exceptions, observable effects and the outside world *)

Module Effects.

Import Pandas.

Inductive exn :=
| KeyError (k : string)
| AttributeError
| ValueError (text : string)
| ReadError
| SinkError
| SystemExit (status : Z).

(** What the programs print or show. *)
Inductive message :=
| NoDbUrl
| Usage
| FileNotFound (csv_file : string)
| Uploaded (n : nat) (csv_file month_tag : string)
| UploadFailed (e : exn)
| PleaseUpload
| DateWarning
| Success (n : nat) (upload_month : string)
| UploadError (e : exn).

(** The [payouts] table as the batches appended to it, every batch ever
    handed to [to_sql], and the messages in the order they appeared. *)
Record state := {
  payouts : list frame;
  to_sql_calls : list frame;
  shown : list message
}.

(** What the programs find around them.  [read_csv] is [None] when
    [pd.read_csv] raises; [to_datetime] is
    [pd.to_datetime(column, dayfirst=True).dt.date], [None] when it
    raises; [sink_accepts] tells whether [create_engine] and the
    append of that batch succeed. *)
Record world := {
  db_url : option string;
  path_exists : string -> bool;
  read_csv : string -> option frame;
  to_datetime : column -> option column;
  sink_accepts : frame -> bool
}.

Definition M (A : Type) : Type := state -> (exn + A) * state.

Definition ret {A} (a : A) : M A := fun st => (inr a, st).

Definition bind {A B} (m : M A) (k : A -> M B) : M B :=
  fun st =>
    match m st with
    | (inr a, st') => k a st'
    | (inl e, st') => (inl e, st')
    end.

Definition raise {A} (e : exn) : M A := fun st => (inl e, st).

Definition with_message (st : state) (msg : message) : state :=
  {| payouts := payouts st;
     to_sql_calls := to_sql_calls st;
     shown := (shown st ++ [msg])%list |}.

(** [print(msg)], [st.error(msg)] and the like. *)
Definition show (msg : message) : M unit :=
  fun st => (inr tt, with_message st msg).

(** The state after [to_sql] was called with [df]. *)
Definition with_write (st : state) (df : frame) (accepted : bool) : state :=
  {| payouts := if accepted then (payouts st ++ [df])%list else payouts st;
     to_sql_calls := (to_sql_calls st ++ [df])%list;
     shown := shown st |}.

(** [try: body / except Exception as e: handler(e)]: [SystemExit] is
    not an [Exception] and passes through. *)
Definition try_except {A} (body : M A) (handler : exn -> M A) : M A :=
  fun st =>
    match body st with
    | (inl (SystemExit c), st') => (inl (SystemExit c), st')
    | (inl e, st') => handler e st'
    | r => r
    end.

(** [sys.exit(status)] *)
Definition sys_exit {A} (status : Z) : M A := raise (SystemExit status).

Definition pd_read_csv (w : world) (file : string) : M frame :=
  match read_csv w file with
  | Some df => ret df
  | None => raise ReadError
  end.

(** [df.to_sql('payouts', engine, if_exists='append', index=False)] *)
Definition to_sql (w : world) (df : frame) : M unit :=
  fun st =>
    if sink_accepts w df
    then (inr tt, with_write st df true)
    else (inl SinkError, with_write st df false).

(** [.str] on what [df[k]] gave: only a series has it. *)
Definition str_accessor (k : string) (sel : selection) : M column :=
  match sel with
  | Series c => ret c
  | SubFrame _ => raise AttributeError
  | Missing => raise (KeyError k)
  end.

(** [.astype(float)] on a column of strings; the first text that is
    not a number raises. *)
Fixpoint astype_float (texts : list string) : M column :=
  match texts with
  | [] => ret []
  | t :: rest =>
      match PyFloat.of_string t with
      | Some x => bind (astype_float rest) (fun c => ret (CFloat x :: c))
      | None => raise (ValueError t)
      end
  end.

(** The exit status of the interpreter after a script. *)
Definition exit_status {A} (r : exn + A) : Z :=
  match r with
  | inr _ => 0
  | inl (SystemExit c) => c
  | inl _ => 1
  end.

End Effects.

Declare Scope py_scope.
Notation "x <- m ;; k" := (Effects.bind m (fun x => k))
(at level 61, m at next level, right associativity) : py_scope.
Notation "m ;;; k" := (Effects.bind m (fun _ => k))
(at level 61, right associativity) : py_scope.

(** ** The ingestion code shared, as text, by both programs *)

Module Ingest.

Import PyStr Pandas Effects.
Local Open Scope py_scope.

(** [c.strip().lower().replace(" ", "_")] *)
Definition clean_header (c : string) : string :=
  replace_char " " "_" (lower (strip c)).

Definition rename_table : list (string * string) :=
  [ ("email_id", "email");
    ("phone_number", "phone");
    ("langauge", "language");
    ("tds_applicability", "tds_applicable") ].

(** Header cleaning followed by the rename, on one label. *)
Definition normalize (h : string) : string :=
  let c := clean_header h in
  match dict_get rename_table c with Some l => l | None => c end.

Definition tds_map : list (string * cell) :=
  [ ("yes", CBool true); ("no", CBool false) ].

(** One cell through [.astype(str).str.lower().map({'yes': True, 'no': False})]. *)
Definition coerce_tds (c : cell) : cell :=
  match dict_get tds_map (lower (py_str c)) with
  | Some v => v
  | None => CNaN
  end.

(** One cell through [.astype(str).str.replace(',', '')]. *)
Definition clean_number (c : cell) : string := remove_char "," (py_str c).

Definition numeric_columns : list string :=
  [ "amount"; "tds"; "payable"; "net_payable" ].

End Ingest.

(** ** [upload_payouts.py] *)

Module Uploader.

Import PyStr Pandas Effects Ingest.
Local Open Scope py_scope.

(** [if not SUPABASE_DB_URL] *)
Definition url_missing (w : world) : bool :=
  match db_url w with
  | Some u => negb (truthy u)
  | None => true
  end.

(** Lines 28-43: load and clean. *)
Definition load_and_clean (w : world) (csv_file month_tag : string) : M frame :=
  df <- pd_read_csv w csv_file ;;
  let df := map_columns clean_header df in
  let df := rename rename_table df in
  df <- (if has_column "tds_applicable" df
         then s <- str_accessor "tds_applicable" (getitem df "tds_applicable") ;;
              ret (setitem df "tds_applicable" (map coerce_tds s))
         else ret df) ;;
  ret (setitem_scalar df "month" (CStr month_tag)).

(** Lines 46-51: the database upload. *)
Definition database_upload (w : world) (df : frame)
    (csv_file month_tag : string) : M unit :=
  try_except
    (to_sql w df ;;; show (Uploaded (len df) csv_file month_tag))
    (fun e => show (UploadFailed e)).

(** The whole script, run with [sys.argv = argv]. *)
Definition script (w : world) (argv : list string) : M unit :=
  (if url_missing w then show NoDbUrl ;;; sys_exit 1 else ret tt) ;;;
  (if negb (Nat.eqb (List.length argv) 3)
   then show Usage ;;; sys_exit 1 else ret tt) ;;;
  let csv_file := nth 1 argv EmptyString in
  let month_tag := nth 2 argv EmptyString in
  (if negb (path_exists w csv_file)
   then show (FileNotFound csv_file) ;;; sys_exit 1 else ret tt) ;;;
  df <- load_and_clean w csv_file month_tag ;;
  database_upload w df csv_file month_tag.

(** The process: exit status and final state. *)
Definition main (w : world) (argv : list string) (st : state) : Z * state :=
  let '(r, st') := script w argv st in (exit_status r, st').

End Uploader.

(** ** [payout_dashboard.py]: the upload form *)

Module UploadForm.

Import PyStr Pandas Effects Ingest.
Local Open Scope py_scope.

(** Lines 88-91: the loop over [numeric_columns]. *)
Fixpoint coerce_numeric (cols : list string) (df : frame) : M frame :=
  match cols with
  | [] => ret df
  | col :: rest =>
      if has_column col df
      then s <- str_accessor col (getitem df col) ;;
           c <- astype_float (map clean_number s) ;;
           coerce_numeric rest (setitem df col c)
      else coerce_numeric rest df
  end.

(** Lines 93-97: the date column, with its own bare [except]. *)
Definition coerce_date (w : world) (df : frame) : M frame :=
  if has_column "transaction_date" df
  then match getitem df "transaction_date" with
       | Series c =>
           match to_datetime w c with
           | Some c' => ret (setitem df "transaction_date" c')
           | None => show DateWarning ;;; ret df
           end
       | _ => show DateWarning ;;; ret df
       end
  else ret df.

(** Lines 77-99: what the form does to the file before the write. *)
Definition transform (w : world) (uploaded_file upload_month : string) : M frame :=
  df <- pd_read_csv w uploaded_file ;;
  let df := map_columns clean_header df in
  let df := rename rename_table df in
  s <- str_accessor "tds_applicable" (getitem df "tds_applicable") ;;
  let df := setitem df "tds_applicable" (map coerce_tds s) in
  df <- coerce_numeric numeric_columns df ;;
  df <- coerce_date w df ;;
  ret (setitem_scalar df "month" (CStr upload_month)).

(** Lines 71-103: the handler of the upload form; [uploaded_file] is
    [None] when no file was chosen. *)
Definition submit_upload (w : world) (uploaded_file : option string)
    (upload_month : string) : M unit :=
  match uploaded_file with
  | Some file =>
      if truthy upload_month then
        try_except
          (df <- transform w file upload_month ;;
           to_sql w df ;;;
           show (Success (len df) upload_month))
          (fun e => show (UploadError e))
      else show PleaseUpload
  | None => show PleaseUpload
  end.

End UploadForm.

(** ** [payout_dashboard.py]: filters, table and chart *)

Module Records.

Import PyStr Pandas.

(** Modelled from the spec: the schema of the [payouts] table, which
    neither program declares.  One row as [load_data] returns it: text
    columns hold a string or NULL, currency columns a binary64 value
    (NaN for NULL), and the three searched columns, which the code
    passes through [str], any cell. *)
Record payout := {
  author_id : cell;
  user_id : cell;
  email : cell;
  amount : spec_float;
  tds : spec_float;
  net_payable : spec_float;
  transaction_id : option string;
  transaction_date : cell;
  month : option string;
  other_columns : list (string * cell)
}.

(** Rows under their index labels. *)
Definition dataframe := list (nat * payout).

(** [pd.read_sql("SELECT * FROM payouts", engine)]: the rows under a
    fresh range index. *)
Definition load_data (rows : list payout) : dataframe :=
  combine (seq 0 (List.length rows)) rows.

(** [df[mask]] for a mask computed row by row. *)
Definition select (p : payout -> bool) (df : dataframe) : dataframe :=
  filter (fun ir => p (snd ir)) df.

(** Lines 132-134, with [search_input] already lowered. *)
Definition matches_search (search_input : string) (row : payout) : bool :=
  contains search_input (lower (py_str (user_id row)))
  || contains search_input (lower (py_str (email row)))
  || contains search_input (lower (py_str (author_id row))).

(** [df['month'].isin(month_range)] *)
Definition month_isin (month_range : list string) (row : payout) : bool :=
  match month row with
  | Some m => existsb (String.eqb m) month_range
  | None => false
  end.

(** [df['tds'] > 0] *)
Definition tds_positive (row : payout) : bool :=
  SFltb PyFloat.pos_zero (tds row).

(** [df['transaction_id'].isna() | (df['transaction_id'] == '')] *)
Definition uncredited (row : payout) : bool :=
  match transaction_id row with
  | None => true
  | Some t => String.eqb t EmptyString
  end.

Definition nonempty {A} (l : list A) : bool :=
  match l with [] => false | _ => true end.

(** Lines 130-143: the filter chain. *)
Definition filter_chain (search_input : string) (month_range : list string)
    (show_only_tds show_only_uncredited : bool) (df : dataframe) : dataframe :=
  let df := if truthy search_input
            then select (matches_search (lower search_input)) df else df in
  let df := if nonempty month_range
            then select (month_isin month_range) df else df in
  let df := if show_only_tds then select tds_positive df else df in
  let df := if show_only_uncredited then select uncredited df else df in
  df.

(** *** The chart *)

Fixpoint insert_key (k : string) (keys : list string) : list string :=
  match keys with
  | [] => [k]
  | h :: t =>
      match String.compare k h with
      | Lt => k :: keys
      | Eq => keys
      | Gt => h :: insert_key k t
      end
  end.

(** The groups of [groupby('month')]: the distinct months in
    increasing order; rows without a month belong to no group. *)
Definition group_keys (df : dataframe) : list string :=
  fold_right (fun ir keys =>
                match month (snd ir) with
                | Some m => insert_key m keys
                | None => keys
                end) [] df.

Definition is_nan (x : spec_float) : bool :=
  match x with S754_nan => true | _ => false end.

(** [sum()] over one group: the values are added in row order with
    binary64 addition, NaN skipped (no property below depends on how
    the totals are rounded). *)
Definition group_sum (df : dataframe) (k : string) : spec_float :=
  fold_left (fun acc ir =>
               match month (snd ir) with
               | Some m =>
                   if String.eqb m k && negb (is_nan (net_payable (snd ir)))
                   then SFadd PyFloat.prec PyFloat.emax acc (net_payable (snd ir))
                   else acc
               | None => acc
               end) df PyFloat.pos_zero.

(** [df.groupby('month')['net_payable'].sum().reset_index()] *)
Definition monthly_totals (df : dataframe) : list (string * spec_float) :=
  map (fun k => (k, group_sum df k)) (group_keys df).

(** The month of format [%m]: one or two digits, 1 to 12. *)
Definition parse_month (s : string) : option Z :=
  match PyFloat.scan_digits s 0 0 with
  | (m, n, EmptyString) =>
      if (1 <=? n) && (n <=? 2) && (1 <=? m) && (m <=? 12) then Some m else None
  | _ => None
  end.

(** One text against format [%Y-%m]: four digits, a hyphen, a month. *)
Definition parse_year_month (s : string) : option (Z * Z) :=
  match PyFloat.scan_digits (take 4 s) 0 0 with
  | (y, 4, EmptyString) =>
      match drop 4 s with
      | String "-" t =>
          match parse_month t with
          | Some m => Some (y, m)
          | None => None
          end
      | _ => None
      end
  | _ => None
  end.

(** [pd.to_datetime(chart_df['month'], format='%Y-%m')]: one text
    that does not match makes the whole call raise. *)
Fixpoint to_datetime_ym (rows : list (string * spec_float))
  : option (list (Z * Z * spec_float)) :=
  match rows with
  | [] => Some []
  | (k, total) :: rest =>
      match parse_year_month k, to_datetime_ym rest with
      | Some ym, Some rest' => Some ((ym, total) :: rest')
      | _, _ => None
      end
  end.

Definition ym_leb (a b : Z * Z) : bool :=
  (fst a <? fst b) || ((fst a =? fst b) && (snd a <=? snd b)).

Fixpoint insert_sorted (x : Z * Z * spec_float) (l : list (Z * Z * spec_float))
  : list (Z * Z * spec_float) :=
  match l with
  | [] => [x]
  | h :: t => if ym_leb (fst x) (fst h) then x :: l else h :: insert_sorted x t
  end.

(** [chart_df.sort_values('month')] *)
Definition sort_values (l : list (Z * Z * spec_float)) : list (Z * Z * spec_float) :=
  fold_right insert_sorted [] l.

Inductive chart_outcome :=
| NoChart                                         (* [df.empty] *)
| LineChart (series : list (Z * Z * spec_float))  (* [st.line_chart] *)
| ChartWarning.                                   (* the [except] branch *)

(** Lines 156-164. *)
Definition chart (df : dataframe) : chart_outcome :=
  if nonempty df then
    match to_datetime_ym (monthly_totals df) with
    | Some chart_df => LineChart (sort_values chart_df)
    | None => ChartWarning
    end
  else NoChart.

(** What one run of the page shows below the filters. *)
Record page := {
  total_records : nat;
  table : dataframe;
  monthly_chart : chart_outcome;
  download : option dataframe
}.

(** Lines 128-169. *)
Definition render (search_input : string) (month_range : list string)
    (show_only_tds show_only_uncredited : bool) (rows : list payout) : page :=
  let df := filter_chain search_input month_range show_only_tds
              show_only_uncredited (load_data rows) in
  {| total_records := List.length df;
     table := df;
     monthly_chart := chart df;
     download := if nonempty df then Some df else None |}.

End Records.

(** ** [payout_dashboard.py]: login, session and the whole script *)

Module App.

Import PyStr Pandas Effects Records.

(** What the dashboard finds around it beyond [world]:
    [sha256_hexdigest] is [hashlib.sha256(text.encode()).hexdigest()],
    [create_engine] tells whether [create_engine(db_url)] returns, and
    [read_sql] is [pd.read_sql("SELECT * FROM payouts", engine)] on the
    store as it stands, [None] when it raises. *)
Record site := {
  host : world;
  sha256_hexdigest : string -> string;
  create_engine : option string -> bool;
  read_sql : state -> option (list payout)
}.

(** Lines 9-10. *)
Definition hash_password (s : site) (password : string) : string :=
  sha256_hexdigest s password.

(** Lines 13-16. *)
Definition USER_CREDENTIALS (s : site) : list (string * string) :=
  [ ("admin", hash_password s "letmein123");
    ("user", hash_password s "user123") ].

(** [None], [True] and [False] as values of one session key. *)
Inductive tristate := PyNone | PyTrue | PyFalse.

(** [st.session_state] *)
Record session_state := {
  authentication_status : tristate;
  username : string
}.

(** Lines 19-22: the session on first load. *)
Definition first_load : session_state :=
  {| authentication_status := PyNone; username := EmptyString |}.

(** What the user did to the widgets before one run of the script. *)
Record widgets := {
  login_username : string;
  login_password : string;
  login_submitted : bool;
  uploaded_file : option string;
  upload_month : string;
  submit_upload : bool;
  search_input : string;
  refresh_data : bool;
  month_range : list string;
  show_only_tds : bool;
  show_only_uncredited : bool
}.

(** The session, the cache of [load_data] and the store. *)
Record app := {
  session : session_state;
  cache : option (list payout);
  db : state
}.

(** What one run leaves on the screen. *)
Inductive view :=
| LoginForm (warning : bool)                      (* lines 26-42, then [st.stop()] *)
| ScriptError                                     (* an uncaught exception *)
| DashboardPage (upload_section : bool) (p : page).

(** Line 34: the test of the login form. *)
Definition credentials_ok (s : site) (name password : string) : bool :=
  match dict_get (USER_CREDENTIALS s) name with
  | Some digest => String.eqb (hash_password s password) digest
  | None => false
  end.

(** Lines 33-39: the session after the login form, and whether the
    warning is shown. *)
Definition login (s : site) (inp : widgets) (ss : session_state)
  : session_state * bool :=
  if login_submitted inp then
    if credentials_ok s (login_username inp) (login_password inp)
    then ({| authentication_status := PyTrue; username := login_username inp |},
          false)
    else ({| authentication_status := PyFalse; username := username ss |}, true)
  else (ss, false).

(** Lines 124-128: [load_data] under [st.cache_data]; the rows and the
    cache afterwards. *)
Definition load_data (s : site) (cached : option (list payout)) (st : state)
  : option (list payout) * option (list payout) :=
  match cached with
  | Some rows => (Some rows, cached)
  | None =>
      match read_sql s st with
      | Some rows => (Some rows, Some rows)
      | None => (None, None)
      end
  end.

(** Lines 52-103: the admin-only upload section. *)
Definition upload_section (s : site) (inp : widgets) (a : app)
  : (exn + unit) * state :=
  if String.eqb (username (session a)) "admin" && submit_upload inp
  then UploadForm.submit_upload (host s) (uploaded_file inp) (upload_month inp) (db a)
  else (inr tt, db a).

(** One run of the script, lines 18-171. *)
Definition script (s : site) (inp : widgets) (a : app) : app * view :=
  match authentication_status (session a) with
  | PyTrue =>
      if create_engine s (db_url (host s)) then
        match upload_section s inp a with
        | (inr _, db1) =>
            let cache1 := if refresh_data inp then None else cache a in
            match load_data s cache1 db1 with
            | (Some rows, cache2) =>
                ({| session := session a; cache := cache2; db := db1 |},
                 DashboardPage (String.eqb (username (session a)) "admin")
                   (render (search_input inp) (month_range inp)
                      (show_only_tds inp) (show_only_uncredited inp) rows))
            | (None, cache2) =>
                ({| session := session a; cache := cache2; db := db1 |},
                 ScriptError)
            end
        | (inl _, db1) =>
            ({| session := session a; cache := cache a; db := db1 |}, ScriptError)
        end
      else (a, ScriptError)
  | _ =>
      let '(ss, warned) := login s inp (session a) in
      ({| session := ss; cache := cache a; db := db a |}, LoginForm warned)
  end.

(** The application when the first user arrives: nobody logged in,
    nothing cached. *)
Definition fresh (st : state) : app :=
  {| session := first_load; cache := None; db := st |}.

(** The application after a sequence of runs. *)
Definition runs (s : site) (inps : list widgets) (a : app) : app :=
  fold_left (fun a inp => fst (script s inp a)) inps a.

(** *** The months offered by the sidebar *)

Definition next_month (ym : Z * Z) : Z * Z :=
  if snd ym =? 12 then (fst ym + 1, 1) else (fst ym, snd ym + 1).

(** [pd.date_range(start, periods=n, freq="M")]: [n] month ends from
    the month of [start] on, each as its year and month. *)
Fixpoint date_range (periods : nat) (ym : Z * Z) : list (Z * Z) :=
  match periods with
  | O => []
  | S n => ym :: date_range n (next_month ym)
  end.

(** [strftime('%Y-%m')] *)
Definition strftime (ym : Z * Z) : string :=
  pad 4 (of_int (fst ym)) ++ "-" ++ pad 2 (of_int (snd ym)).

(** Lines 115-118: the options of the month selector. *)
Definition month_options : list string :=
  map strftime (date_range 36 (2023, 1)).

End App.

(** ** Notions the properties are stated with *)

Module Props.

Import PyStr Pandas Effects Ingest Records.

Definition is_letter (c : ascii) : bool :=
  is_upper c || ((97 <=? code c) && (code c <=? 122)).

(** The same character, or the same letter in the other case. *)
Definition same_letter (a b : ascii) : bool :=
  Ascii.eqb a b
  || (is_letter a && is_letter b && (Z.abs (code a - code b) =? 32)).

(** Equality of texts up to the case of letters. *)
Fixpoint eq_nocase (s t : string) : bool :=
  match s, t with
  | EmptyString, EmptyString => true
  | String a s', String b t' => same_letter a b && eq_nocase s' t'
  | _, _ => false
  end.


(** Rows of [a] whose index label also occurs in [b]. *)
Definition intersection (a b : dataframe) : dataframe :=
  filter (fun ir => existsb (fun jr => Nat.eqb (fst jr) (fst ir)) b) a.

(** The four filters of the sidebar, each with its setting. *)
Inductive criterion :=
| TextSearch (search_input : string)
| MonthSet (month_range : list string)
| TdsOnly
| UncreditedOnly.

(** The filter chain run with one criterion set and the rest idle. *)
Definition apply (c : criterion) (df : dataframe) : dataframe :=
  match c with
  | TextSearch q => filter_chain q [] false false df
  | MonthSet ms => filter_chain EmptyString ms false false df
  | TdsOnly => filter_chain EmptyString [] true false df
  | UncreditedOnly => filter_chain EmptyString [] false true df
  end.

(** The row test a criterion stands for; an empty search text and an
    empty month selection test nothing. *)
Definition criterion_test (c : criterion) : payout -> bool :=
  match c with
  | TextSearch q =>
      if truthy q then matches_search (lower q) else fun _ => true
  | MonthSet ms => if nonempty ms then month_isin ms else fun _ => true
  | TdsOnly => tds_positive
  | UncreditedOnly => uncredited
  end.

(** The month labels a chart shows. *)
Definition charted (c : chart_outcome) : list (Z * Z) :=
  match c with
  | LineChart series => map fst series
  | _ => []
  end.





(** An exception that [except Exception] catches. *)
Definition catchable (e : exn) : Prop :=
  match e with SystemExit _ => False | _ => True end.

(** A currency column of the frame holds a cell that is not a number
    once its commas are removed. *)
Definition bad_column (col : string) (df : frame) : Prop :=
  has_column col df = true
  /\ forall s, getitem df col = Series s ->
               exists t, In t (map clean_number s) /\ PyFloat.of_string t = None.

(** No batch was handed to [to_sql] between two states. *)
Definition no_write (before after : state) : Prop :=
  to_sql_calls after = to_sql_calls before /\ payouts after = payouts before.

End Props.

(** ** Sample inputs *)

Module Samples.

Import PyStr Pandas Effects Records.

(** A day-first reader for texts of the form D/M/YYYY; any other text
    in the column makes it fail as a whole. *)
Definition day_first_cell (c : cell) : option cell :=
  match c with
  | CNaN => Some CNaN
  | CStr s =>
      match PyFloat.scan_digits s 0 0 with
      | (d, _, String "/" r) =>
          match PyFloat.scan_digits r 0 0 with
          | (m, _, String "/" r') =>
              match PyFloat.scan_digits r' 0 0 with
              | (y, 4, EmptyString) =>
                  if (1 <=? d) && (d <=? 31) && (1 <=? m) && (m <=? 12)
                  then Some (CDate {| year := y; month_of_year := m; day := d |})
                  else None
              | _ => None
              end
          | _ => None
          end
      | _ => None
      end
  | _ => None
  end.

Fixpoint day_first (c : column) : option column :=
  match c with
  | [] => Some []
  | x :: rest =>
      match day_first_cell x, day_first rest with
      | Some d, Some ds => Some (d :: ds)
      | _, _ => None
      end
  end.

(** A machine with the connection string set and one file,
    [payouts.csv], holding [df]; [accepts] is what the store answers. *)
Definition machine (df : frame) (accepts : bool) : world :=
  {| db_url := Some "postgresql://payouts";
     path_exists := String.eqb "payouts.csv";
     read_csv := fun f => if String.eqb f "payouts.csv" then Some df else None;
     to_datetime := day_first;
     sink_accepts := fun _ => accepts |}.

Definition initial : state :=
  {| payouts := []; to_sql_calls := []; shown := [] |}.

(** Two rows with grouped amounts. *)
Definition two_rows : frame :=
  [ ("User ID", [CStr "u1"; CStr "u2"]);
    ("Amount", [CStr "1,000"; CStr "2,500.75"]);
    ("TDS Applicability", [CStr "Yes"; CStr "No"]);
    ("Transaction Date", [CStr "05/04/2025"; CStr "17/04/2025"]) ].



Definition row (uid : string) (m : option string) (net : Z) : payout :=
  {| author_id := CStr "a1";
     user_id := CStr uid;
     email := CStr (uid ++ "@example.org");
     amount := PyFloat.of_decimal false net 0;
     tds := PyFloat.pos_zero;
     net_payable := PyFloat.of_decimal false net 0;
     transaction_id := None;
     transaction_date := CNone;
     month := m;
     other_columns := [] |}.

(** One record of April 2025 and one whose month is not a month. *)
Definition mixed_months : dataframe :=
  load_data [ row "u1" (Some "2025-04") 100; row "u2" (Some "April") 250 ].

End Samples.

(** ** Further notions *)

Module Notions.

Import PyStr Pandas Effects Ingest Records.

(** Some header of the frame normalizes to [k] more than once. *)
Definition duplicated (k : string) (df : frame) : bool :=
  match getitem (map_columns normalize df) k with
  | SubFrame _ => true
  | _ => false
  end.

(** What the uploader makes of a frame it has read; [None] when the
    [tds_applicable] column is repeated. *)
Definition uploader_batch (df : frame) (tag : string) : option frame :=
  let df1 := map_columns normalize df in
  match getitem df1 "tds_applicable" with
  | Missing => Some (setitem_scalar df1 "month" (CStr tag))
  | Series s =>
      Some (setitem_scalar (setitem df1 "tds_applicable" (map coerce_tds s))
              "month" (CStr tag))
  | SubFrame _ => None
  end.

(** The uploader gets as far as the write: the connection string is
    set, there are two arguments, the file exists and is read, and its
    [tds_applicable] column, if any, is not repeated. *)
Definition reaches_store (w : world) (argv : list string) : bool :=
  negb (Uploader.url_missing w)
  && Nat.eqb (List.length argv) 3
  && path_exists w (nth 1 argv EmptyString)
  && match read_csv w (nth 1 argv EmptyString) with
     | Some df => negb (duplicated "tds_applicable" df)
     | None => false
     end.

(** Every column of the batch labelled [month] holds the tag in each
    of the [n] rows, and there is such a column. *)
Definition month_tagged (tag : string) (n : nat) (b : frame) : Prop :=
  has_column "month" b = true
  /\ forall c, In ("month", c) b -> c = repeat (CStr tag) n.

Definition is_float (c : cell) : bool :=
  match c with CFloat _ => true | _ => false end.

(** A value the [tds_applicable] column has after the coercion. *)
Definition is_flag (c : cell) : bool :=
  match c with CBool _ | CNaN => true | _ => false end.

(** The cells of the typed columns of a batch are typed. *)
Definition typed_batch (b : frame) : Prop :=
  (forall col c, In col numeric_columns -> In (col, c) b -> forallb is_float c = true)
  /\ (forall c, In ("tds_applicable", c) b -> forallb is_flag c = true).






(** The conjunction of the tests the sidebar has switched on. *)
Definition all_tests (search_input : string) (month_range : list string)
    (show_only_tds show_only_uncredited : bool) (row : payout) : bool :=
  (if truthy search_input then matches_search (lower search_input) row else true)
  && (if nonempty month_range then month_isin month_range row else true)
  && (if show_only_tds then tds_positive row else true)
  && (if show_only_uncredited then uncredited row else true).

(** One of the three searched columns is null. *)
Definition null_identity (row : payout) : bool :=
  match user_id row, email row, author_id row with
  | CNone, _, _ | _, CNone, _ | _, _, CNone => true
  | _, _, _ => false
  end.

Definition ym_le (a b : Z * Z) : Prop := ym_leb a b = true.

(** Every character of the text passes the test. *)
Fixpoint all_chars (p : ascii -> bool) (s : string) : bool :=
  match s with
  | EmptyString => true
  | String c t => p c && all_chars p t
  end.

Fixpoint insert_label (x : Z * Z) (l : list (Z * Z)) : list (Z * Z) :=
  match l with
  | [] => [x]
  | h :: t => if ym_leb x h then x :: l else h :: insert_label x t
  end.

(** The month labels a chart has when its groups are [keys]: the keys
    read as months and put in order, or nothing when one of them is
    not a month. *)
Fixpoint read_keys (keys : list string) : option (list (Z * Z)) :=
  match keys with
  | [] => Some []
  | k :: rest =>
      match parse_year_month k, read_keys rest with
      | Some ym, Some yms => Some (ym :: yms)
      | _, _ => None
      end
  end.

Definition labels_of (keys : list string) : list (Z * Z) :=
  match read_keys keys with
  | Some yms => fold_right insert_label [] yms
  | None => []
  end.

(** The order of the points of a chart by their month. *)
Definition by_month (a b : Z * Z * spec_float) : Prop := ym_le (fst a) (fst b).

(** The order of texts, character by character. *)
Definition text_lt : string -> string -> Prop := OrderedTypeEx.String_as_OT.lt.

(** What holds of every session: a user is named exactly when the
    session is authenticated, and then it is one of the two known
    users. *)
Definition session_ok (ss : App.session_state) : Prop :=
  match App.authentication_status ss with
  | App.PyTrue => App.username ss = "admin" \/ App.username ss = "user"
  | _ => App.username ss = EmptyString
  end.

(** A login with the administrator's name and a password that hashes
    as the administrator's does. *)
Definition admin_login (s : App.site) (inp : App.widgets) : Prop :=
  App.login_submitted inp = true
  /\ App.login_username inp = "admin"
  /\ App.hash_password s (App.login_password inp)
     = App.hash_password s "letmein123".

End Notions.

(** ** Further sample inputs *)

Module MoreSamples.

Import PyStr Pandas Effects Records.



(** A site on machine [w] whose table reads back as [rows]. *)
Definition site_on (w : world) (rows : list payout) : App.site :=
  {| App.host := w;
     App.sha256_hexdigest := fun text => "sha256:" ++ text;
     App.create_engine := fun url => match url with Some _ => true | None => false end;
     App.read_sql := fun _ => Some rows |}.

(** Widgets nobody has touched. *)
Definition untouched : App.widgets :=
  {| App.login_username := EmptyString;
     App.login_password := EmptyString;
     App.login_submitted := false;
     App.uploaded_file := None;
     App.upload_month := EmptyString;
     App.submit_upload := false;
     App.search_input := EmptyString;
     App.refresh_data := false;
     App.month_range := [];
     App.show_only_tds := false;
     App.show_only_uncredited := false |}.

(** The form filled in with a file and a month and submitted. *)
Definition uploading : App.widgets :=
  {| App.login_username := EmptyString;
     App.login_password := EmptyString;
     App.login_submitted := false;
     App.uploaded_file := Some "payouts.csv";
     App.upload_month := "2025-04";
     App.submit_upload := true;
     App.search_input := EmptyString;
     App.refresh_data := false;
     App.month_range := [];
     App.show_only_tds := false;
     App.show_only_uncredited := false |}.

(** An administrator's session with [rows] in the cache. *)
Definition admin_session (rows : list payout) : App.app :=
  {| App.session := {| App.authentication_status := App.PyTrue;
                       App.username := "admin" |};
     App.cache := Some rows;
     App.db := Samples.initial |}.

(** A stored record whose e-mail is NULL. *)
Definition without_email : dataframe :=
  load_data
    [ {| author_id := CStr "a7";
         user_id := CStr "u7";
         email := CNone;
         amount := PyFloat.of_decimal false 500 0;
         tds := PyFloat.of_decimal false 50 0;
         net_payable := PyFloat.of_decimal false 450 0;
         transaction_id := Some "T-7";
         transaction_date := CNone;
         month := Some "2025-04";
         other_columns := [] |} ].

(** Records of April and of March 2025, in that order. *)
Definition two_months : dataframe :=
  load_data [ Samples.row "u1" (Some "2025-04") 100;
              Samples.row "u2" (Some "2025-03") 250 ].

(** A file with the amount under two headers. *)
Definition amount_twice : frame :=
  [ ("Amount", [CStr "100"]);
    ("TDS Applicability", [CStr "No"]);
    ("amount ", [CStr "100"]) ].

End MoreSamples.

(** * Properties *)

(** ** Floats: reading and printing *)

Module FloatFacts.

Import PyStr.

(** Texts [float] accepts and rejects. *)
Example float_accepts :
  map PyFloat.of_string [ "1000"; " 2500.75 "; "1_000"; "-0"; "1e3"; "nan"; "INF" ]
  = [ Some (PyFloat.of_decimal false 1000 0);
      Some (PyFloat.of_decimal false 250075 (-2));
      Some (PyFloat.of_decimal false 1000 0);
      Some (S754_zero true);
      Some (PyFloat.of_decimal false 1000 0);
      Some S754_nan;
      Some (S754_infinity false) ].
Proof. vm_compute. reflexivity. Qed.

Example float_rejects :
  map PyFloat.of_string [ "abc"; EmptyString; "1,5"; "1 2"; "1_"; "."; "1e"; "--1" ]
  = [ None; None; None; None; None; None; None; None ].
Proof. vm_compute. reflexivity. Qed.

(** [repr] prints the shortest text that reads back. *)
Example repr_samples :
  map (fun t => option_map PyFloat.repr (PyFloat.of_string t))
      [ "1000"; "2500.75"; "0.1"; "1e16"; "0.00001"; "123456789012345678"; "-1.50" ]
  = [ Some "1000.0"; Some "2500.75"; Some "0.1"; Some "1e+16"; Some "1e-05";
      Some "1.2345678901234568e+17"; Some "-1.5" ].
Proof. vm_compute. reflexivity. Qed.

(** A float cell goes through the currency step unchanged. *)
Example float_cell_round_trip :
  let x := PyFloat.of_decimal false 123456789 (-3) in
  PyFloat.of_string (Ingest.clean_number (Pandas.CFloat x)) = Some x.
Proof. vm_compute. reflexivity. Qed.

End FloatFacts.

(** ** Header normalization *)

Module HeaderFacts.

Import PyStr Pandas Ingest Props.

Lemma lstrip_idem s : lstrip (lstrip s) = lstrip s.
Proof.
  induction s as [|c t IH]; simpl; [reflexivity|].
  destruct (is_space c) eqn:E; [exact IH|].
  simpl. now rewrite E.
Qed.

Lemma rstrip_idem s : rstrip (rstrip s) = rstrip s.
Proof.
  induction s as [|c t IH]; simpl; [reflexivity|].
  destruct (rstrip t) as [|d r] eqn:E.
  - destruct (is_space c) eqn:Ec; simpl; [reflexivity|]. now rewrite Ec.
  - rewrite <- E in IH |- *. rewrite E at 1.
    transitivity (match rstrip (rstrip t) with
                  | EmptyString =>
                      if is_space c then EmptyString else String c EmptyString
                  | r0 => String c r0
                  end); [now rewrite E|].
    rewrite IH, E. reflexivity.
Qed.

Lemma rstrip_lstrip s : rstrip (lstrip s) = lstrip (rstrip s).
Proof.
  induction s as [|c t IH]; [reflexivity|].
  cbn [lstrip rstrip].
  destruct (is_space c) eqn:Ec.
  - rewrite IH. destruct (rstrip t) as [|d r]; simpl; [reflexivity|].
    now rewrite Ec.
  - cbn [rstrip]. destruct (rstrip t) as [|d r]; rewrite ?Ec; simpl; now rewrite Ec.
Qed.

Lemma strip_idem s : strip (strip s) = strip s.
Proof.
  unfold strip.
  now rewrite (rstrip_lstrip (rstrip s)), rstrip_idem, lstrip_idem.
Qed.




(** A function that rewrites a text character by character and never
    produces white space from anything else keeps a trimmed text
    trimmed. *)
Section CharacterWise.

Variable f : ascii -> ascii.
Variable g : string -> string.
Hypothesis g_nil : g EmptyString = EmptyString.
Hypothesis g_cons : forall c t, g (String c t) = String (f c) (g t).
Hypothesis f_space : forall c, is_space c = false -> is_space (f c) = false.




End CharacterWise.













(** The headers of the expected CSV come out as the column names of the
    table. *)
Example canonical_headers :
  map normalize [ "Email ID"; "Phone Number"; "Langauge"; "TDS Applicability";
                  "  Net Payable "; "Transaction ID"; "IFSC" ]
  = [ "email"; "phone"; "language"; "tds_applicable";
      "net_payable"; "transaction_id"; "ifsc" ].
Proof. reflexivity. Qed.

End HeaderFacts.

(** ** The type coercer *)

Module CoercionFacts.

Import PyStr Pandas Effects Ingest Props.

Lemma code_range c : 0 <= code c < 256.
Proof.
  unfold code. pose proof (nat_ascii_bounded c). lia.
Qed.

Lemma code_inj a b : code a = code b -> a = b.
Proof.
  unfold code. intros H. apply Nat2Z.inj in H.
  rewrite <- (ascii_nat_embedding a), <- (ascii_nat_embedding b).
  now rewrite H.
Qed.

Lemma ascii_eqb_code a b : Ascii.eqb a b = (code a =? code b).
Proof.
  destruct (Ascii.eqb_spec a b) as [->|N].
  - now rewrite Z.eqb_refl.
  - symmetry. apply Z.eqb_neq. intros H. apply N, code_inj, H.
Qed.

Lemma code_lower_char c :
  code (lower_char c) = if is_upper c then code c + 32 else code c.
Proof.
  destruct c as [[] [] [] [] [] [] [] []]; vm_compute; reflexivity.
Qed.

Ltac split_leb :=
  repeat match goal with
         | |- context [?a <=? ?b] => destruct (Z.leb_spec a b)
         end.

Ltac split_eqb :=
  repeat match goal with
         | |- context [?a =? ?b] => destruct (Z.eqb_spec a b)
         end.

(** Two characters are the same letter up to case exactly when
    lowering makes them equal. *)
Lemma same_letter_lower a b :
  same_letter a b = Ascii.eqb (lower_char a) (lower_char b).
Proof.
  rewrite (ascii_eqb_code (lower_char a)), !code_lower_char.
  unfold same_letter, is_letter, is_upper. rewrite ascii_eqb_code.
  pose proof (code_range a). pose proof (code_range b).
  generalize dependent (code a). generalize dependent (code b).
  intros y Hy x Hx.
  split_leb; cbn; split_eqb; cbn; try reflexivity; lia.
Qed.

Lemma eq_nocase_lower s t : eq_nocase s t = String.eqb (lower s) (lower t).
Proof.
  revert t. induction s as [|a s IH]; intros [|b t]; try reflexivity.
  cbn [eq_nocase lower String.eqb].
  rewrite same_letter_lower, IH.
  now destruct (Ascii.eqb (lower_char a) (lower_char b)).
Qed.

(** C5.  The coercion of a [tds_applicable] cell is a total function:
    the text of the cell equal to "yes" up to letter case gives true,
    equal to "no" up to letter case gives false, and every other cell
    -- a blank one included -- gives the missing value, which is
    neither.  "Yes", "YES", "yes" give true, "No" gives false, "Maybe",
    the empty text and a blank cell give the missing value. *)
Theorem tds_coercion_total (c : cell) :
  coerce_tds c =
    (if eq_nocase (py_str c) "yes" then CBool true
     else if eq_nocase (py_str c) "no" then CBool false
     else CNaN)
  /\ map coerce_tds [CStr "Yes"; CStr "YES"; CStr "yes"; CStr "No";
                     CStr "Maybe"; CStr EmptyString; CNaN]
     = [CBool true; CBool true; CBool true; CBool false; CNaN; CNaN; CNaN].
Proof.
  split; [|reflexivity].
  rewrite !eq_nocase_lower. unfold coerce_tds, tds_map. cbn [dict_get].
  change (lower "yes") with "yes". change (lower "no") with "no".
  destruct (String.eqb (lower (py_str c)) "yes"); [reflexivity|].
  destruct (String.eqb (lower (py_str c)) "no"); reflexivity.
Qed.

End CoercionFacts.

(** ** The two upload programs *)

Module UploadFacts.

Import PyStr Pandas Effects Ingest Props.
Local Open Scope py_scope.

(** *** Frames *)

Lemma rename_clean df :
  rename rename_table (map_columns clean_header df) = map_columns normalize df.
Proof.
  unfold rename, map_columns. rewrite map_map. reflexivity.
Qed.

Lemma has_column_in k c df : In (k, c) df -> has_column k df = true.
Proof.
  intros H. unfold has_column, columns. apply existsb_exists.
  exists k. split; [|apply String.eqb_refl].
  apply in_map_iff. now exists (k, c).
Qed.


Lemma filter_setitem k k' c df :
  k <> k' ->
  filter (fun lc => String.eqb (fst lc) k') (setitem df k c)
  = filter (fun lc => String.eqb (fst lc) k') df.
Proof.
  intros N. unfold setitem.
  assert (E : String.eqb k k' = false) by now apply String.eqb_neq.
  destruct (has_column k df).
  - induction df as [|[l c0] df IH]; [reflexivity|].
    cbn [map filter fst]. rewrite IH.
    destruct (String.eqb_spec l k) as [->|Nl]; cbn [fst]; [|reflexivity].
    now rewrite E.
  - rewrite filter_app. cbn [filter fst]. rewrite E. apply app_nil_r.
Qed.

Lemma getitem_setitem k k' c df :
  k <> k' -> getitem (setitem df k c) k' = getitem df k'.
Proof.
  intros N. unfold getitem. now rewrite filter_setitem.
Qed.

Lemma has_column_filter k df :
  has_column k df = Records.nonempty (filter (fun lc => String.eqb (fst lc) k) df).
Proof.
  unfold has_column, columns.
  induction df as [|[l c] df IH]; [reflexivity|].
  cbn [map existsb filter fst]. rewrite IH, (String.eqb_sym k l).
  now destruct (String.eqb l k).
Qed.

Lemma has_column_setitem k k' c df :
  k <> k' -> has_column k' (setitem df k c) = has_column k' df.
Proof.
  intros N. now rewrite !has_column_filter, filter_setitem.
Qed.


(** *** The numeric loop *)

Lemma astype_float_cases texts st :
  (exists c, astype_float texts st = (inr c, st)
             /\ forall t, In t texts -> PyFloat.of_string t <> None)
  \/ (exists t, In t texts /\ PyFloat.of_string t = None
                /\ astype_float texts st = (inl (ValueError t), st)).
Proof.
  induction texts as [|t texts IH].
  - left. exists []. split; [reflexivity|]. intros t [].
  - cbn [astype_float]. destruct (PyFloat.of_string t) as [x|] eqn:P.
    + destruct IH as [(c & E & A)|(t' & I & B & E)].
      * left. exists (CFloat x :: c). split.
        { unfold bind. rewrite E. reflexivity. }
        intros u [<-|Hu]; [now rewrite P|now apply A].
      * right. exists t'. split; [now right|]. split; [exact B|].
        unfold bind. now rewrite E.
    + right. exists t. split; [now left|]. split; [exact P|reflexivity].
Qed.

Lemma coerce_numeric_fails cols :
  NoDup cols ->
  forall df st, (exists col, In col cols /\ bad_column col df) ->
  exists e, catchable e /\ UploadForm.coerce_numeric cols df st = (inl e, st).
Proof.
  induction 1 as [|col0 rest Hnot Hnd IH]; intros df st (col & Hin & Hb & Hbad).
  - destruct Hin.
  - cbn [UploadForm.coerce_numeric].
    destruct (has_column col0 df) eqn:Hc.
    + destruct (getitem df col0) as [|s|cs] eqn:G; cbn [str_accessor].
      * exists (KeyError col0). now split.
      * unfold bind at 1. cbn [ret].
        destruct (astype_float_cases (map clean_number s) st)
          as [(c & E & A)|(t & I & B & E)].
        -- unfold bind at 1. rewrite E.
           destruct Hin as [->|Hin].
           ++ destruct (Hbad s G) as (t & I & B). now destruct (A t I).
           ++ apply IH. exists col. split; [exact Hin|].
              assert (N : col0 <> col) by (intros ->; contradiction).
              split; [now rewrite has_column_setitem|].
              intros s'. rewrite getitem_setitem by exact N. apply Hbad.
        -- exists (ValueError t). split; [exact Logic.I|].
           unfold bind at 1. now rewrite E.
      * exists AttributeError. now split.
    + destruct Hin as [->|Hin]; [congruence|].
      apply IH. exists col. now repeat split.
Qed.

(** *** The upload form *)


Lemma submit_upload_failed w file upload_month st e :
  truthy upload_month = true -> catchable e ->
  UploadForm.transform w file upload_month st = (inl e, st) ->
  UploadForm.submit_upload w (Some file) upload_month st
  = (inr tt, with_message st (UploadError e)).
Proof.
  intros T C E. unfold UploadForm.submit_upload. rewrite T.
  unfold try_except, bind at 1. rewrite E.
  destruct e; try reflexivity. destruct C.
Qed.



(** *** The command-line uploader *)

Lemma main_after_load w prog csv_file month_tag st df :
  Uploader.url_missing w = false ->
  path_exists w csv_file = true ->
  Uploader.load_and_clean w csv_file month_tag st = (inr df, st) ->
  Uploader.main w [prog; csv_file; month_tag] st
  = (0, with_message (with_write st df (sink_accepts w df))
          (if sink_accepts w df
           then Uploaded (len df) csv_file month_tag
           else UploadFailed SinkError)).
Proof.
  intros U P L. unfold Uploader.main, Uploader.script.
  rewrite U. cbn [List.length Nat.eqb negb nth]. rewrite P. cbn [negb].
  unfold bind at 1. cbn [ret]. unfold bind at 1. cbn [ret].
  unfold bind at 1. cbn [ret]. unfold bind at 1. rewrite L.
  unfold Uploader.database_upload, try_except, bind, to_sql, show.
  destruct (sink_accepts w df); reflexivity.
Qed.

(** The other ways the uploader ends: status 1 and nothing written. *)
Lemma early_exits w argv st :
  (Uploader.url_missing w = true ->
   Uploader.main w argv st = (1, with_message st NoDbUrl))
  /\ (Uploader.url_missing w = false -> List.length argv <> 3%nat ->
      Uploader.main w argv st = (1, with_message st Usage))
  /\ (forall prog csv_file month_tag,
        Uploader.url_missing w = false -> argv = [prog; csv_file; month_tag] ->
        path_exists w csv_file = false ->
        Uploader.main w argv st = (1, with_message st (FileNotFound csv_file)))
  /\ (forall prog csv_file month_tag,
        Uploader.url_missing w = false -> argv = [prog; csv_file; month_tag] ->
        path_exists w csv_file = true -> read_csv w csv_file = None ->
        Uploader.main w argv st = (1, st)).
Proof.
  unfold Uploader.main, Uploader.script. repeat split.
  - intros ->. reflexivity.
  - intros -> N. apply Nat.eqb_neq in N. rewrite N. reflexivity.
  - intros prog csv_file month_tag -> -> P. cbn. rewrite P. reflexivity.
  - intros prog csv_file month_tag -> -> P R. cbn. rewrite P. cbn.
    unfold Uploader.load_and_clean, pd_read_csv. rewrite R. reflexivity.
Qed.

(** C2.  When the connection string is set, the two arguments are
    given, the file exists and is read, and the write to the store
    fails, the uploader prints the failure and ends with exit status 0. *)
Theorem store_failure_exit_status w prog csv_file month_tag st df :
  Uploader.url_missing w = false ->
  path_exists w csv_file = true ->
  Uploader.load_and_clean w csv_file month_tag st = (inr df, st) ->
  sink_accepts w df = false ->
  Uploader.main w [prog; csv_file; month_tag] st
  = (0, with_message (with_write st df false) (UploadFailed SinkError)).
Proof.
  intros U P L S.
  rewrite (main_after_load w prog csv_file month_tag st df U P L).
  now rewrite S.
Qed.

Lemma store_failure_witness :
  let w := Samples.machine Samples.two_rows false in
  exists df,
    Uploader.load_and_clean w "payouts.csv" "2025-04" Samples.initial
    = (inr df, Samples.initial)
    /\ sink_accepts w df = false
    /\ Uploader.main w ["upload_payouts.py"; "payouts.csv"; "2025-04"] Samples.initial
       = (0, with_message (with_write Samples.initial df false)
               (UploadFailed SinkError)).
Proof.
  cbv zeta. eexists. split; [vm_compute; reflexivity|]. split; [reflexivity|].
  apply (store_failure_exit_status (Samples.machine Samples.two_rows false));
    reflexivity.
Defined.



(** *** The month tag *)

(** After the month assignment every column labelled [month] holds
    the tag in each of its rows, whatever it held before. *)
Lemma setitem_columns k c df :
  has_column k (setitem df k c) = true
  /\ forall c', In (k, c') (setitem df k c) -> c' = c.
Proof.
  unfold setitem. destruct (has_column k df) eqn:H; split.
  - rewrite has_column_filter in H |- *.
    induction df as [|[l c0] df' IH]; [discriminate H|].
    cbn [map filter fst] in H |- *.
    destruct (String.eqb l k) eqn:E; cbn [fst].
    + now rewrite String.eqb_refl.
    + rewrite E. now apply IH.
  - intros c' I. apply in_map_iff in I. destruct I as ([l c0] & E & _).
    cbn [fst] in E. destruct (String.eqb_spec l k) as [->|N].
    + now injection E as <-.
    + injection E as -> _. now destruct N.
  - unfold has_column, columns. rewrite map_app, existsb_app. cbn.
    rewrite String.eqb_refl. apply orb_true_r.
  - intros c' I. apply in_app_or in I. destruct I as [I|[E|[]]].
    + apply has_column_in in I. congruence.
    + now injection E as <-.
Qed.

(** After the month assignment every column labelled [month] holds
    the tag in each of its rows, whatever it held before. *)
Lemma month_tag_everywhere df v :
  let tagged := setitem_scalar df "month" v in
  has_column "month" tagged = true
  /\ forall c, In ("month", c) tagged -> c = repeat v (len df).
Proof. apply setitem_columns. Qed.

(** C9.  Run with an empty month tag as its second argument, the
    uploader -- which checks the number of arguments only -- ingests
    the batch, tags every record with the empty text and ends with
    exit status 0; the upload form, given the same empty tag, refuses
    before reading the file. *)
Theorem empty_month_tag_ingested :
  let w := Samples.machine Samples.two_rows true in
  exists batch,
    Uploader.main w ["upload_payouts.py"; "payouts.csv"; EmptyString] Samples.initial
    = (0, with_message (with_write Samples.initial batch true)
            (Uploaded 2 "payouts.csv" EmptyString))
    /\ getitem batch "month" = Series [CStr EmptyString; CStr EmptyString]
    /\ UploadForm.submit_upload w (Some "payouts.csv") EmptyString Samples.initial
       = (inr tt, with_message Samples.initial PleaseUpload).
Proof.
  cbv zeta. eexists. split; [vm_compute; reflexivity|].
  split; vm_compute; reflexivity.
Qed.

(** C1.  On a file with the amounts "1,000" and "2,500.75" and day-first
    dates the batch the uploader hands to the store keeps the amount
    and date cells as the texts of the file, while the batch of the
    upload form holds the numbers 1000.0 and 2500.75 and the dates
    5 and 17 April 2025: the uploader has no currency or date step. *)
Theorem uploader_skips_type_coercion :
  let w := Samples.machine Samples.two_rows true in
  fst (Uploader.load_and_clean w "payouts.csv" "2025-04" Samples.initial)
  = inr [ ("user_id", [CStr "u1"; CStr "u2"]);
          ("amount", [CStr "1,000"; CStr "2,500.75"]);
          ("tds_applicable", [CBool true; CBool false]);
          ("transaction_date", [CStr "05/04/2025"; CStr "17/04/2025"]);
          ("month", [CStr "2025-04"; CStr "2025-04"]) ]
  /\ fst (UploadForm.transform w "payouts.csv" "2025-04" Samples.initial)
     = inr [ ("user_id", [CStr "u1"; CStr "u2"]);
             ("amount", [CFloat (PyFloat.of_decimal false 1000 0);
                         CFloat (PyFloat.of_decimal false 250075 (-2))]);
             ("tds_applicable", [CBool true; CBool false]);
             ("transaction_date",
               [CDate {| year := 2025; month_of_year := 4; day := 5 |};
                CDate {| year := 2025; month_of_year := 4; day := 17 |}]);
             ("month", [CStr "2025-04"; CStr "2025-04"]) ].
Proof.
  cbv zeta. split; vm_compute; reflexivity.
Qed.

End UploadFacts.

(** ** Filters, table and chart *)

Module RecordsFacts.

Import PyStr Pandas Records Props.

(** *** The filter chain *)

Lemma select_all (df : dataframe) : select (fun _ => true) df = df.
Proof.
  unfold select. induction df as [|ir df IH]; [reflexivity|].
  cbn [filter]. now rewrite IH.
Qed.

Lemma apply_as_select c df : apply c df = select (criterion_test c) df.
Proof.
  destruct c as [q|ms| |]; unfold apply, filter_chain, criterion_test;
    cbn [truthy nonempty].
  - destruct (truthy q); [reflexivity|now rewrite select_all].
  - destruct (nonempty ms); [reflexivity|now rewrite select_all].
  - reflexivity.
  - reflexivity.
Qed.

Lemma select_commute p q (df : dataframe) :
  select p (select q df) = select q (select p df).
Proof.
  unfold select. induction df as [|ir df IH]; [reflexivity|].
  cbn [filter].
  destruct (q (snd ir)) eqn:Q, (p (snd ir)) eqn:P; cbn [filter];
    rewrite ?Q, ?P, IH; reflexivity.
Qed.

Lemma unique_label (df : dataframe) ir jr :
  NoDup (map fst df) -> In ir df -> In jr df -> fst jr = fst ir -> jr = ir.
Proof.
  induction df as [|kr df IH]; intros N Hi Hj E; [destruct Hi|].
  cbn [map] in N. apply NoDup_cons_iff in N. destruct N as [Nk N].
  destruct Hi as [<-|Hi], Hj as [<-|Hj].
  - reflexivity.
  - exfalso. apply Nk. rewrite <- E. now apply in_map.
  - exfalso. apply Nk. rewrite E. now apply in_map.
  - now apply IH.
Qed.

Lemma select_intersection p q (df : dataframe) :
  NoDup (map fst df) ->
  select p (select q df) = intersection (select p df) (select q df).
Proof.
  intros N. rewrite select_commute. unfold intersection.
  unfold select at 1. apply filter_ext_in. intros ir Hi.
  apply filter_In in Hi. destruct Hi as [Hi _].
  destruct (q (snd ir)) eqn:Q; symmetry.
  - apply existsb_exists. exists ir. split; [|apply Nat.eqb_refl].
    apply filter_In. now split.
  - apply not_true_is_false. intros H. apply existsb_exists in H.
    destruct H as (jr & Hj & E). apply Nat.eqb_eq in E.
    apply filter_In in Hj. destruct Hj as [Hj Qj].
    rewrite (unique_label df ir jr N Hi Hj E) in Qj. congruence.
Qed.

Lemma load_data_labels rows : map fst (load_data rows) = seq 0 (List.length rows).
Proof.
  unfold load_data. generalize 0%nat.
  induction rows as [|r rows IH]; intros n; [reflexivity|].
  cbn [List.length seq combine map fst]. now rewrite IH.
Qed.

Lemma load_data_rows rows : map snd (load_data rows) = rows.
Proof.
  unfold load_data. generalize 0%nat.
  induction rows as [|r rows IH]; intros n; [reflexivity|].
  cbn [List.length seq combine map snd]. now rewrite IH.
Qed.

(** C7.  With every option idle -- empty search text, empty month
    selection, both boxes unchecked -- the filter chain returns the
    frame it was given, and the table of the page holds the stored
    records, all of them and in their order. *)
Theorem filter_chain_idle (rows : list payout) (df : dataframe) :
  filter_chain EmptyString [] false false df = df
  /\ table (render EmptyString [] false false rows) = load_data rows
  /\ map snd (table (render EmptyString [] false false rows)) = rows.
Proof.
  split; [reflexivity|]. split; [reflexivity|].
  cbn [render table filter_chain truthy nonempty]. apply load_data_rows.
Qed.

(** C8.  For any two of the four filters, each with any setting,
    running one after the other gives the same frame in either order,
    on every frame; and on the stored records it gives the
    intersection of the frames each filter gives alone. *)
Theorem filters_commute_and_intersect (rows : list payout) (c1 c2 : criterion) :
  (forall df, apply c1 (apply c2 df) = apply c2 (apply c1 df))
  /\ apply c1 (apply c2 (load_data rows))
     = intersection (apply c1 (load_data rows)) (apply c2 (load_data rows))
  /\ apply c2 (apply c1 (load_data rows))
     = intersection (apply c1 (load_data rows)) (apply c2 (load_data rows)).
Proof.
  assert (C : forall df, apply c1 (apply c2 df) = apply c2 (apply c1 df)).
  { intros df. rewrite !apply_as_select. apply select_commute. }
  assert (I : apply c1 (apply c2 (load_data rows))
              = intersection (apply c1 (load_data rows)) (apply c2 (load_data rows))).
  { rewrite !apply_as_select. apply select_intersection.
    rewrite load_data_labels. apply seq_NoDup. }
  split; [exact C|]. split; [exact I|]. now rewrite <- C.
Qed.

(** The chain with all four options is the four filters one after
    another. *)
Lemma filter_chain_as_applications q ms (t u : bool) df :
  filter_chain q ms t u df
  = (if u then apply UncreditedOnly else fun d => d)
      ((if t then apply TdsOnly else fun d => d)
         (apply (MonthSet ms) (apply (TextSearch q) df))).
Proof.
  unfold apply, filter_chain. cbn [truthy nonempty].
  destruct u, t; reflexivity.
Qed.

(** A record passes the uncredited filter exactly when its transaction
    id is null or the empty text. *)
Lemma uncredited_iff row :
  uncredited row = true
  <-> transaction_id row = None \/ transaction_id row = Some EmptyString.
Proof.
  unfold uncredited. destruct (transaction_id row) as [t|].
  - rewrite String.eqb_eq. split.
    + intros ->. now right.
    + intros [H|H]; [discriminate H|now injection H].
  - intuition.
Qed.

(** *** The chart *)

Lemma insert_key_in x k keys : In x (insert_key k keys) <-> x = k \/ In x keys.
Proof.
  induction keys as [|h t IH]; cbn [insert_key].
  - cbn. intuition.
  - destruct (String.compare k h) eqn:C.
    + apply String.compare_eq_iff in C. subst h. cbn. intuition.
    + cbn. intuition.
    + cbn [In]. rewrite IH. intuition.
Qed.

Lemma group_keys_in k (df : dataframe) :
  In k (group_keys df) <-> exists ir, In ir df /\ month (snd ir) = Some k.
Proof.
  unfold group_keys. induction df as [|jr df IH]; cbn [fold_right].
  - split; [intros []|intros (ir & [] & _)].
  - destruct (month (snd jr)) as [m|] eqn:M.
    + rewrite insert_key_in, IH. split.
      * intros [->|(ir & I & E)]; [exists jr|exists ir]; cbn; auto.
      * intros (ir & [<-|I] & E); [left; congruence|right; now exists ir].
    + rewrite IH. split.
      * intros (ir & I & E). exists ir. cbn. auto.
      * intros (ir & [<-|I] & E); [congruence|now exists ir].
Qed.


Lemma to_datetime_ym_none rows :
  to_datetime_ym rows = None ->
  exists k, In k (map fst rows) /\ parse_year_month k = None.
Proof.
  induction rows as [|[k0 t0] rows IH]; intros H; [discriminate H|].
  cbn [to_datetime_ym] in H.
  destruct (parse_year_month k0) as [ym0|] eqn:P.
  - destruct (to_datetime_ym rows) as [rest|]; [discriminate H|].
    destruct (IH eq_refl) as (k & I & Pk). exists k. cbn. auto.
  - exists k0. cbn. auto.
Qed.

Lemma insert_sorted_in x y l : In x (insert_sorted y l) <-> x = y \/ In x l.
Proof.
  induction l as [|h t IH]; cbn [insert_sorted].
  - cbn. intuition.
  - destruct (ym_leb (fst y) (fst h)).
    + cbn. intuition.
    + cbn [In]. rewrite IH. intuition.
Qed.


Lemma monthly_totals_keys df : map fst (monthly_totals df) = group_keys df.
Proof.
  unfold monthly_totals. rewrite map_map. cbn [fst]. apply map_id.
Qed.




End RecordsFacts.

(** ** More on the two upload programs *)

Module UploadLaws.

Import PyStr Pandas Effects Ingest Props Notions UploadFacts.
Local Open Scope py_scope.

(** *** Frames *)

Lemma len_setitem df k c : List.length c = len df -> len (setitem df k c) = len df.
Proof.
  intros L. unfold setitem. destruct (has_column k df) eqn:H.
  - destruct df as [|[l c0] df]; [reflexivity|].
    cbn [map fst]. destruct (String.eqb l k); [exact L|reflexivity].
  - destruct df as [|[l c0] df]; [exact L|reflexivity].
Qed.

Lemma len_setitem_scalar df k v : len (setitem_scalar df k v) = len df.
Proof. unfold setitem_scalar. apply len_setitem, repeat_length. Qed.

Lemma in_setitem_other df k c l c0 :
  l <> k -> (In (l, c0) (setitem df k c) <-> In (l, c0) df).
Proof.
  intros N. unfold setitem. destruct (has_column k df).
  - rewrite in_map_iff. split.
    + intros ([l' c'] & E & I). cbn [fst] in E.
      destruct (String.eqb l' k); [|now rewrite <- E].
      injection E as E _. now destruct N.
    + intros I. exists (l, c0). split; [|exact I]. cbn [fst].
      destruct (String.eqb_spec l k) as [E|_]; [now destruct N|reflexivity].
  - rewrite in_app_iff. cbn [In]. split; [|now left].
    intros [I|[E|[]]]; [exact I|]. injection E as E _. now destruct N.
Qed.

Lemma getitem_present k df : has_column k df = true <-> getitem df k <> Missing.
Proof.
  rewrite has_column_filter. unfold getitem.
  destruct (filter (fun lc => String.eqb (fst lc) k) df) as [|lc [|lc' r]]; cbn.
  - split; [discriminate|intros H; now destruct H].
  - split; [discriminate|reflexivity].
  - split; [discriminate|reflexivity].
Qed.

Lemma setitem_scalar_tagged df tag :
  month_tagged tag (len (setitem_scalar df "month" (CStr tag)))
    (setitem_scalar df "month" (CStr tag)).
Proof.
  rewrite len_setitem_scalar. apply (setitem_columns "month").
Qed.

(** *** The uploader, case by case *)

Lemma load_and_clean_eq w csv_file month_tag st df :
  read_csv w csv_file = Some df ->
  Uploader.load_and_clean w csv_file month_tag st
  = (match uploader_batch df month_tag with
     | Some b => inr b
     | None => inl AttributeError
     end, st).
Proof.
  intros R. unfold Uploader.load_and_clean, pd_read_csv, uploader_batch.
  rewrite R. unfold bind at 1. cbn [ret]. rewrite rename_clean.
  set (df1 := map_columns normalize df).
  destruct (getitem df1 "tds_applicable") as [|c|cs] eqn:G.
  - assert (H : has_column "tds_applicable" df1 = false).
    { apply not_true_is_false. intros H. apply getitem_present in H. congruence. }
    rewrite H. reflexivity.
  - assert (H : has_column "tds_applicable" df1 = true).
    { apply getitem_present. congruence. }
    rewrite H. reflexivity.
  - assert (H : has_column "tds_applicable" df1 = true).
    { apply getitem_present. congruence. }
    rewrite H. reflexivity.
Qed.

Lemma uploader_batch_tagged df tag b :
  uploader_batch df tag = Some b -> month_tagged tag (len b) b.
Proof.
  unfold uploader_batch.
  destruct (getitem (map_columns normalize df) "tds_applicable");
    intros E; inversion E; subst; apply setitem_scalar_tagged.
Qed.

(** What a run of the uploader comes to, by the first check that stops
    it. *)
Lemma main_cases w argv st :
  (reaches_store w argv = false
   /\ fst (Uploader.main w argv st) = 1
   /\ no_write st (snd (Uploader.main w argv st)))
  \/ (exists df b,
        reaches_store w argv = true
        /\ read_csv w (nth 1 argv EmptyString) = Some df
        /\ uploader_batch df (nth 2 argv EmptyString) = Some b
        /\ Uploader.main w argv st
           = (0, with_message (with_write st b (sink_accepts w b))
                   (if sink_accepts w b
                    then Uploaded (len b) (nth 1 argv EmptyString)
                           (nth 2 argv EmptyString)
                    else UploadFailed SinkError))).
Proof.
  unfold reaches_store.
  destruct (Uploader.url_missing w) eqn:U.
  { left. destruct (early_exits w argv st) as (H & _). rewrite (H U).
    repeat split. }
  destruct (Nat.eqb (List.length argv) 3) eqn:A.
  2:{ left. destruct (early_exits w argv st) as (_ & H & _).
      apply Nat.eqb_neq in A. rewrite (H U A). repeat split. }
  apply Nat.eqb_eq in A.
  destruct argv as [|prog [|csv_file [|month_tag [|x argv]]]]; try discriminate A.
  cbn [nth negb andb].
  destruct (path_exists w csv_file) eqn:P.
  2:{ left. destruct (early_exits w [prog; csv_file; month_tag] st) as (_ & _ & H & _).
      rewrite (H prog csv_file month_tag U eq_refl P). repeat split. }
  destruct (read_csv w csv_file) as [df|] eqn:R.
  2:{ left. destruct (early_exits w [prog; csv_file; month_tag] st) as (_ & _ & _ & H).
      rewrite (H prog csv_file month_tag U eq_refl P R). repeat split. }
  pose proof (load_and_clean_eq w csv_file month_tag st df R) as L.
  unfold duplicated.
  destruct (uploader_batch df month_tag) as [b|] eqn:B.
  - right. exists df, b.
    assert (D : match getitem (map_columns normalize df) "tds_applicable" with
                | SubFrame _ => true
                | _ => false
                end = false).
    { unfold uploader_batch in B.
      now destruct (getitem (map_columns normalize df) "tds_applicable"). }
    rewrite D. split; [reflexivity|]. split; [first [reflexivity|exact R]|].
    split; [exact B|]. now apply main_after_load.
  - left.
    assert (D : match getitem (map_columns normalize df) "tds_applicable" with
                | SubFrame _ => true
                | _ => false
                end = true).
    { unfold uploader_batch in B.
      now destruct (getitem (map_columns normalize df) "tds_applicable"). }
    rewrite D. cbn [negb andb].
    assert (M : Uploader.main w [prog; csv_file; month_tag] st = (1, st)).
    { unfold Uploader.main, Uploader.script.
      rewrite U. cbn [List.length Nat.eqb negb nth]. rewrite P. cbn [negb].
      unfold bind at 1. cbn [ret]. unfold bind at 1. cbn [ret].
      unfold bind at 1. cbn [ret]. unfold bind at 1. rewrite L. reflexivity. }
    rewrite M. repeat split.
Qed.


(** X2.  A run of the uploader only ever appends: it hands at most one
    batch to [to_sql], the table grows by that batch when the store
    accepts it and is otherwise unchanged, and the batch carries the
    month tag of the command line in every row. *)
Theorem uploader_only_appends w argv st :
  exists bs,
    (List.length bs <= 1)%nat
    /\ to_sql_calls (snd (Uploader.main w argv st)) = (to_sql_calls st ++ bs)%list
    /\ payouts (snd (Uploader.main w argv st))
       = (payouts st ++ filter (sink_accepts w) bs)%list
    /\ forall b, In b bs -> month_tagged (nth 2 argv EmptyString) (len b) b.
Proof.
  destruct (main_cases w argv st) as [(_ & _ & C & P)|(df & b & _ & _ & B & M)].
  - exists []. rewrite C, P, !app_nil_r.
    split; [cbn; lia|]. split; [reflexivity|]. split; [reflexivity|].
    intros b' [].
  - exists [b]. rewrite M. cbn [snd with_message with_write to_sql_calls payouts filter].
    split; [cbn; lia|]. split; [reflexivity|]. split.
    + destruct (sink_accepts w b); [reflexivity|now rewrite app_nil_r].
    + intros b' [<-|[]]. exact (uploader_batch_tagged _ _ _ B).
Qed.



(** *** The upload form, step by step *)

Lemma astype_float_floats texts st c st' :
  astype_float texts st = (inr c, st') -> forallb is_float c = true /\ st' = st.
Proof.
  revert c st'. induction texts as [|t texts IH]; intros c st' H.
  - inversion H. now split.
  - cbn [astype_float] in H. destruct (PyFloat.of_string t) as [x|]; [|discriminate H].
    unfold bind in H. destruct (astype_float texts st) as [[e|c0] st0] eqn:E;
      [discriminate H|].
    inversion H; subst. destruct (IH c0 st' eq_refl) as [F ->]. now split.
Qed.

Lemma coerce_tds_flags s : forallb is_flag (map coerce_tds s) = true.
Proof.
  induction s as [|x s IH]; [reflexivity|]. cbn [map forallb]. rewrite IH.
  unfold coerce_tds, tds_map. cbn [dict_get].
  destruct (String.eqb (lower (py_str x)) "yes"); [reflexivity|].
  destruct (String.eqb (lower (py_str x)) "no"); reflexivity.
Qed.

Lemma coerce_numeric_cons col rest df st :
  UploadForm.coerce_numeric (col :: rest) df st
  = if has_column col df then
      match getitem df col with
      | Missing => (inl (KeyError col), st)
      | SubFrame _ => (inl AttributeError, st)
      | Series s =>
          match astype_float (map clean_number s) st with
          | (inl e, st') => (inl e, st')
          | (inr c, st') => UploadForm.coerce_numeric rest (setitem df col c) st'
          end
      end
    else UploadForm.coerce_numeric rest df st.
Proof.
  cbn [UploadForm.coerce_numeric]. destruct (has_column col df); [|reflexivity].
  destruct (getitem df col); reflexivity.
Qed.

(** The numeric loop either stops with an exception the form catches,
    or leaves floats in every column it was asked to convert and every
    other column as it was; it never touches the state. *)
Lemma coerce_numeric_cases cols :
  forall df st,
  (exists e, catchable e /\ UploadForm.coerce_numeric cols df st = (inl e, st))
  \/ (exists df',
        UploadForm.coerce_numeric cols df st = (inr df', st)
        /\ (forall col c, In col cols -> In (col, c) df' -> forallb is_float c = true)
        /\ (forall l c, ~ In l cols -> (In (l, c) df' <-> In (l, c) df))).
Proof.
  induction cols as [|col0 rest IH]; intros df st.
  - right. exists df. split; [reflexivity|]. split; [intros col c []|reflexivity].
  - rewrite coerce_numeric_cons.
    destruct (has_column col0 df) eqn:Hc.
    + destruct (getitem df col0) as [|s|cs] eqn:G.
      * left. exists (KeyError col0). now split.
      * destruct (astype_float (map clean_number s) st) as [[e|c0] st0] eqn:A.
        -- left. destruct (astype_float_cases (map clean_number s) st)
             as [(c1 & E & _)|(t & _ & _ & E)]; rewrite E in A; inversion A; subst.
           exists (ValueError t). now split.
        -- destruct (astype_float_floats _ _ _ _ A) as [F ->].
           destruct (IH (setitem df col0 c0) st)
             as [(e & Ce & E)|(df' & E & Fl & Pr)].
           ++ left. now exists e.
           ++ right. exists df'. split; [exact E|]. split.
              ** intros col c [<-|I] Ic; [|now apply (Fl col)].
                 destruct (in_dec string_dec col0 rest) as [I|N];
                   [now apply (Fl col0)|].
                 apply (Pr col0 c N) in Ic.
                 destruct (setitem_columns col0 c0 df) as [_ S].
                 now rewrite (S c Ic).
              ** intros l c N. rewrite Pr by (intros I; apply N; now right).
                 apply in_setitem_other. intros ->. apply N. now left.
      * left. exists AttributeError. now split.
    + destruct (IH df st) as [(e & Ce & E)|(df' & E & Fl & Pr)].
      * left. now exists e.
      * right. exists df'. split; [exact E|]. split.
        -- intros col c [<-|I] Ic; [|now apply (Fl col)].
           destruct (in_dec string_dec col0 rest) as [I|N];
             [now apply (Fl col0)|].
           apply (Pr col0 c N) in Ic. apply has_column_in in Ic. congruence.
        -- intros l c N. apply Pr. intros I. apply N. now right.
Qed.

(** The date step never raises: it replaces the date column, or leaves
    the frame as it is, with or without the warning. *)
Lemma coerce_date_cases w df st :
  exists df' st',
    UploadForm.coerce_date w df st = (inr df', st')
    /\ (st' = st \/ st' = with_message st DateWarning)
    /\ (df' = df \/ exists c, df' = setitem df "transaction_date" c).
Proof.
  unfold UploadForm.coerce_date.
  destruct (has_column "transaction_date" df).
  - destruct (getitem df "transaction_date") as [|c|cs].
    + exists df, (with_message st DateWarning). repeat split; auto.
    + destruct (to_datetime w c) as [c'|].
      * exists (setitem df "transaction_date" c'), st. repeat split; eauto.
      * exists df, (with_message st DateWarning). repeat split; auto.
    + exists df, (with_message st DateWarning). repeat split; auto.
  - exists df, st. repeat split; auto.
Qed.

(** The transformation of the form as one expression. *)
Lemma transform_unfold w file upload_month st :
  UploadForm.transform w file upload_month st
  = match read_csv w file with
    | None => (inl ReadError, st)
    | Some df =>
        match getitem (map_columns normalize df) "tds_applicable" with
        | Missing => (inl (KeyError "tds_applicable"), st)
        | SubFrame _ => (inl AttributeError, st)
        | Series s =>
            match UploadForm.coerce_numeric numeric_columns
                    (setitem (map_columns normalize df) "tds_applicable"
                       (map coerce_tds s)) st with
            | (inl e, st1) => (inl e, st1)
            | (inr df3, st1) =>
                match UploadForm.coerce_date w df3 st1 with
                | (inl e, st2) => (inl e, st2)
                | (inr df4, st2) =>
                    (inr (setitem_scalar df4 "month" (CStr upload_month)), st2)
                end
            end
        end
    end.
Proof.
  unfold UploadForm.transform, pd_read_csv.
  destruct (read_csv w file) as [df|]; [|reflexivity].
  unfold bind at 1. cbn [ret]. rewrite rename_clean.
  destruct (getitem (map_columns normalize df) "tds_applicable") as [|s|cs];
    reflexivity.
Qed.

Lemma transform_cases w file upload_month st :
  (exists e, catchable e
             /\ UploadForm.transform w file upload_month st = (inl e, st))
  \/ (exists b st',
        UploadForm.transform w file upload_month st = (inr b, st')
        /\ (st' = st \/ st' = with_message st DateWarning)
        /\ month_tagged upload_month (len b) b
        /\ typed_batch b).
Proof.
  rewrite transform_unfold.
  destruct (read_csv w file) as [df|].
  2:{ left. exists ReadError. now split. }
  set (df1 := map_columns normalize df).
  destruct (getitem df1 "tds_applicable") as [|s|cs].
  - left. exists (KeyError "tds_applicable"). now split.
  - set (df2 := setitem df1 "tds_applicable" (map coerce_tds s)).
    destruct (coerce_numeric_cases numeric_columns df2 st)
      as [(e & Ce & E)|(df3 & E & Fl & Pr)]; rewrite E.
    + left. now exists e.
    + right. destruct (coerce_date_cases w df3 st) as (df4 & st' & D & Hst & Hdf).
      rewrite D.
      exists (setitem_scalar df4 "month" (CStr upload_month)), st'.
      split; [reflexivity|].
      split; [exact Hst|]. split; [apply setitem_scalar_tagged|].
      assert (K : forall l c, l <> "month" -> l <> "transaction_date" ->
                    In (l, c) (setitem_scalar df4 "month" (CStr upload_month)) ->
                    In (l, c) df3).
      { intros l c Nm Nd I. unfold setitem_scalar in I.
        apply in_setitem_other in I; [|exact Nm].
        destruct Hdf as [->|(c' & ->)]; [exact I|].
        now apply in_setitem_other in I. }
      split.
      * intros col c Hc I. apply (Fl col c Hc). apply K; [| |exact I];
          intros ->; cbn in Hc; intuition discriminate.
      * intros c I. apply K in I; [|discriminate|discriminate].
        apply Pr in I; [|cbn; intuition discriminate].
        destruct (setitem_columns "tds_applicable" (map coerce_tds s) df1) as [_ S].
        rewrite (S c I). apply coerce_tds_flags.
  - left. exists AttributeError. now split.
Qed.

(** What a submission of the form comes to. *)
Lemma submit_upload_cases w uploaded_file upload_month st :
  (exists msg,
     UploadForm.submit_upload w uploaded_file upload_month st
     = (inr tt, with_message st msg))
  \/ (exists b st1 msg,
        (st1 = st \/ st1 = with_message st DateWarning)
        /\ month_tagged upload_month (len b) b
        /\ typed_batch b
        /\ UploadForm.submit_upload w uploaded_file upload_month st
           = (inr tt, with_message (with_write st1 b (sink_accepts w b)) msg)).
Proof.
  unfold UploadForm.submit_upload.
  destruct uploaded_file as [file|]; [|left; now exists PleaseUpload].
  destruct (truthy upload_month); [|left; now exists PleaseUpload].
  destruct (transform_cases w file upload_month st)
    as [(e & Ce & E)|(b & st1 & E & Hst & Tg & Ty)].
  - left. exists (UploadError e). unfold try_except, bind at 1. rewrite E.
    destruct e; try reflexivity. destruct Ce.
  - right.
    exists b, st1, (if sink_accepts w b then Success (len b) upload_month
                    else UploadError SinkError).
    split; [exact Hst|]. split; [exact Tg|]. split; [exact Ty|].
    unfold try_except, bind at 1. rewrite E. unfold bind, to_sql, show.
    destruct (sink_accepts w b); reflexivity.
Qed.

(** *** What the form writes *)

(** X4.  A submission of the upload form never raises: whatever the
    file and the world, every exception ends as a message.  It only
    ever appends: at most one batch is handed to [to_sql], the table
    grows by that batch when the store accepts it, and the batch
    carries the month typed into the form in every row. *)
Theorem form_only_appends w uploaded_file upload_month st :
  fst (UploadForm.submit_upload w uploaded_file upload_month st) = inr tt
  /\ exists bs,
      (List.length bs <= 1)%nat
      /\ to_sql_calls (snd (UploadForm.submit_upload w uploaded_file upload_month st))
         = (to_sql_calls st ++ bs)%list
      /\ payouts (snd (UploadForm.submit_upload w uploaded_file upload_month st))
         = (payouts st ++ filter (sink_accepts w) bs)%list
      /\ forall b, In b bs -> month_tagged upload_month (len b) b.
Proof.
  destruct (submit_upload_cases w uploaded_file upload_month st)
    as [(msg & E)|(b & st1 & msg & Hst & Tg & _ & E)]; rewrite E.
  - split; [reflexivity|]. exists []. cbn [snd with_message to_sql_calls payouts filter].
    rewrite !app_nil_r. split; [cbn; lia|]. split; [reflexivity|].
    split; [reflexivity|]. intros b [].
  - split; [reflexivity|]. exists [b].
    cbn [snd with_message with_write to_sql_calls payouts filter].
    assert (C : to_sql_calls st1 = to_sql_calls st) by now destruct Hst as [->| ->].
    assert (P : payouts st1 = payouts st) by now destruct Hst as [->| ->].
    rewrite C, P. split; [cbn; lia|]. split; [reflexivity|]. split.
    + destruct (sink_accepts w b); [reflexivity|now rewrite app_nil_r].
    + intros b' [<-|[]]. exact Tg.
Qed.

(** X5.  Every batch the upload form hands to [to_sql] is typed: its
    currency columns hold floats only and its [tds_applicable] column
    holds only true, false and the missing value. *)
Theorem form_writes_typed_batches w uploaded_file upload_month st :
  exists bs,
    to_sql_calls (snd (UploadForm.submit_upload w uploaded_file upload_month st))
    = (to_sql_calls st ++ bs)%list
    /\ forall b, In b bs -> typed_batch b.
Proof.
  destruct (submit_upload_cases w uploaded_file upload_month st)
    as [(msg & E)|(b & st1 & msg & Hst & _ & Ty & E)]; rewrite E.
  - exists []. cbn [snd with_message to_sql_calls]. rewrite app_nil_r.
    split; [reflexivity|]. intros b [].
  - exists [b]. cbn [snd with_message with_write to_sql_calls].
    assert (C : to_sql_calls st1 = to_sql_calls st) by now destruct Hst as [->| ->].
    rewrite C. split; [reflexivity|]. intros b' [<-|[]]. exact Ty.
Qed.








(** X8.  A file in which two headers normalize to the same typed label
    -- [tds_applicable] or one of the currency columns -- is rejected by
    the upload form as a whole: an error is shown and nothing is handed
    to the store. *)
Theorem repeated_typed_column_rejected w file upload_month st df col :
  read_csv w file = Some df ->
  In col ("tds_applicable" :: numeric_columns) ->
  duplicated col df = true ->
  truthy upload_month = true ->
  exists e,
    UploadForm.submit_upload w (Some file) upload_month st
    = (inr tt, with_message st (UploadError e)).
Proof.
  intros R I D T. unfold duplicated in D.
  destruct (getitem (map_columns normalize df) col) as [|c|cs] eqn:G;
    try discriminate D.
  assert (F : exists e, catchable e
                /\ UploadForm.transform w file upload_month st = (inl e, st)).
  { rewrite transform_unfold, R. destruct I as [<-|I].
    - rewrite G. exists AttributeError. now split.
    - destruct (getitem (map_columns normalize df) "tds_applicable") as [|s|cs'].
      + exists (KeyError "tds_applicable"). now split.
      + assert (N : "tds_applicable" <> col).
        { intros <-. cbn in I. intuition discriminate. }
        destruct (coerce_numeric_fails numeric_columns) with
          (df := setitem (map_columns normalize df) "tds_applicable"
                   (map coerce_tds s)) (st := st) as (e & Ce & E).
        * repeat constructor; cbn; intuition discriminate.
        * exists col. split; [exact I|]. split.
          -- rewrite has_column_setitem by exact N.
             apply getitem_present. congruence.
          -- intros s'. rewrite getitem_setitem by exact N. congruence.
        * exists e. split; [exact Ce|]. now rewrite E.
      + exists AttributeError. now split. }
  destruct F as (e & Ce & E). exists e. now apply submit_upload_failed.
Qed.

Lemma repeated_typed_column_witness :
  let w := Samples.machine MoreSamples.amount_twice true in
  duplicated "amount" MoreSamples.amount_twice = true
  /\ exists e,
      UploadForm.submit_upload w (Some "payouts.csv") "2025-04" Samples.initial
      = (inr tt, with_message Samples.initial (UploadError e)).
Proof.
  cbv zeta. split; [reflexivity|].
  apply (repeated_typed_column_rejected
           (Samples.machine MoreSamples.amount_twice true) "payouts.csv"
           "2025-04" Samples.initial MoreSamples.amount_twice "amount");
    try reflexivity.
  right. left. reflexivity.
Defined.

(** *** When the form accepts a file *)







End UploadLaws.

(** ** More on header normalization *)

Module HeaderLaws.

Import PyStr Pandas Ingest Props Notions HeaderFacts CoercionFacts.








End HeaderLaws.

(** ** More on the filters *)

Module FilterLaws.

Import PyStr Pandas Records Props Notions RecordsFacts CoercionFacts.

Lemma select_and p q (df : dataframe) :
  select q (select p df) = select (fun row => p row && q row) df.
Proof.
  unfold select. induction df as [|ir df IH]; [reflexivity|].
  cbn [filter]. destruct (p (snd ir)); cbn [filter andb]; now rewrite IH.
Qed.

Lemma select_ext p q (df : dataframe) :
  (forall row, p row = q row) -> select p df = select q df.
Proof. intros H. unfold select. apply filter_ext. intros ir. apply H. Qed.

Lemma chain_as_select q ms t u df :
  filter_chain q ms t u df = select (all_tests q ms t u) df.
Proof.
  unfold filter_chain, all_tests.
  transitivity
    (select (fun row => if u then uncredited row else true)
       (select (fun row => if t then tds_positive row else true)
          (select (fun row => if nonempty ms then month_isin ms row else true)
             (select (fun row => if truthy q then matches_search (lower q) row
                                 else true) df)))).
  - destruct (truthy q), (nonempty ms), t, u; rewrite ?select_all; reflexivity.
  - rewrite !select_and. apply select_ext. intros row.
    unfold all_tests. now rewrite !andb_assoc.
Qed.

(** X12.  The filters combine with a logical AND and keep the order of
    the rows: the chain keeps exactly the rows that pass every test
    switched on, and running it twice changes nothing more. *)
Theorem filter_chain_is_conjunction q ms t u (df : dataframe) :
  filter_chain q ms t u df = select (all_tests q ms t u) df
  /\ (forall ir, In ir (filter_chain q ms t u df)
                 <-> In ir df /\ all_tests q ms t u (snd ir) = true)
  /\ filter_chain q ms t u (filter_chain q ms t u df) = filter_chain q ms t u df.
Proof.
  rewrite !chain_as_select. split; [reflexivity|]. split.
  - intros ir. unfold select. apply filter_In.
  - rewrite select_and. apply select_ext. intros row.
    now destruct (all_tests q ms t u row).
Qed.

Lemma eq_nocase_truthy q q' : eq_nocase q q' = true -> truthy q = truthy q'.
Proof. destruct q, q'; cbn; intros H; try reflexivity; discriminate H. Qed.



(** X14.  A row with a null in one of the searched columns is found by
    the search text "none" in any case, because the code searches the
    text [str] makes of the cell. *)
Theorem search_finds_nulls q (df : dataframe) ir :
  eq_nocase q "none" = true ->
  In ir df -> null_identity (snd ir) = true ->
  In ir (filter_chain q [] false false df).
Proof.
  intros E I N. rewrite chain_as_select. apply filter_In. split; [exact I|].
  unfold all_tests. cbn [nonempty]. rewrite (eq_nocase_truthy q "none" E).
  rewrite eq_nocase_lower in E. apply String.eqb_eq in E. rewrite E.
  cbn [truthy]. rewrite !andb_true_r. unfold matches_search, null_identity in *.
  destruct (user_id (snd ir)); try (cbn; reflexivity);
    destruct (email (snd ir)); try (cbn; apply orb_true_r);
      try (rewrite orb_assoc; rewrite orb_comm);
      destruct (author_id (snd ir)); try discriminate N;
        try (cbn; reflexivity); cbn; now rewrite !orb_true_r.
Qed.

Lemma search_finds_nulls_witness :
  exists ir,
    In ir MoreSamples.without_email
    /\ null_identity (snd ir) = true
    /\ In ir (filter_chain "NONE" [] false false MoreSamples.without_email).
Proof.
  eexists. split; [left; reflexivity|]. split; [reflexivity|].
  apply (search_finds_nulls "NONE" MoreSamples.without_email);
    [reflexivity|left; reflexivity|reflexivity].
Defined.





End FilterLaws.

(** ** More on the chart *)

Module ChartLaws.

Import PyStr Pandas Records Props Notions RecordsFacts FilterLaws.
Import Stdlib.Sorting.Sorted.

Lemma ym_leb_total a b : ym_leb a b = false -> ym_leb b a = true.
Proof.
  unfold ym_leb. destruct a as [y m], b as [y' m']. cbn [fst snd].
  destruct (Z.ltb_spec y y'), (Z.eqb_spec y y'), (Z.leb_spec m m'),
    (Z.ltb_spec y' y), (Z.eqb_spec y' y), (Z.leb_spec m' m);
    cbn; intros Hf; try reflexivity; try discriminate Hf; lia.
Qed.

Lemma ym_leb_trans a b c : ym_leb a b = true -> ym_leb b c = true -> ym_leb a c = true.
Proof.
  unfold ym_leb. destruct a as [y m], b as [y' m'], c as [y'' m'']. cbn [fst snd].
  destruct (Z.ltb_spec y y'), (Z.eqb_spec y y'), (Z.leb_spec m m'),
    (Z.ltb_spec y' y''), (Z.eqb_spec y' y''), (Z.leb_spec m' m''),
    (Z.ltb_spec y y''), (Z.eqb_spec y y''), (Z.leb_spec m m'');
    cbn; intros Ha Hb; try reflexivity; try discriminate Ha; try discriminate Hb;
    lia.
Qed.

Lemma insert_sorted_sorted x l :
  StronglySorted by_month l -> StronglySorted by_month (insert_sorted x l).
Proof.
  induction 1 as [|h t S IH F]; cbn [insert_sorted].
  - constructor; constructor.
  - destruct (ym_leb (fst x) (fst h)) eqn:L.
    + constructor; [now constructor|]. constructor; [exact L|].
      rewrite Forall_forall in F |- *. intros y I.
      exact (ym_leb_trans _ _ _ L (F y I)).
    + constructor; [exact IH|]. rewrite Forall_forall in F |- *.
      intros y I. apply insert_sorted_in in I. destruct I as [->|I].
      * now apply ym_leb_total.
      * now apply F.
Qed.

Lemma sort_values_sorted l : StronglySorted by_month (sort_values l).
Proof.
  unfold sort_values. induction l as [|x l IH]; cbn [fold_right].
  - constructor.
  - now apply insert_sorted_sorted.
Qed.

Lemma sorted_labels l :
  StronglySorted by_month l -> StronglySorted ym_le (map fst l).
Proof.
  induction 1 as [|h t S IH F]; cbn [map]; constructor; [exact IH|].
  rewrite Forall_forall in F |- *. intros y I. apply in_map_iff in I.
  destruct I as (z & <- & I). now apply F.
Qed.

(** X16.  The chart is in time order: its month labels never go back,
    whatever the order of the records. *)
Theorem chart_in_time_order (df : dataframe) :
  StronglySorted ym_le (charted (chart df)).
Proof.
  unfold chart. destruct (nonempty df); [|constructor].
  destruct (to_datetime_ym (monthly_totals df)); [|constructor].
  cbn [charted]. apply sorted_labels, sort_values_sorted.
Qed.

Lemma insert_key_sorted k keys :
  StronglySorted text_lt keys -> StronglySorted text_lt (insert_key k keys).
Proof.
  induction 1 as [|h t S IH F]; cbn [insert_key].
  - constructor; constructor.
  - destruct (String.compare k h) eqn:C.
    + now constructor.
    + apply OrderedTypeEx.String_as_OT.cmp_lt in C.
      constructor; [now constructor|]. constructor; [exact C|].
      rewrite Forall_forall in F |- *. intros y I.
      exact (OrderedTypeEx.String_as_OT.lt_trans _ _ _ C (F y I)).
    + assert (L : text_lt h k).
      { apply OrderedTypeEx.String_as_OT.cmp_lt.
        unfold OrderedTypeEx.String_as_OT.cmp.
        rewrite String.compare_antisym, C. reflexivity. }
      constructor; [exact IH|]. rewrite Forall_forall in F |- *.
      intros y I. apply insert_key_in in I. destruct I as [->|I]; [exact L|].
      now apply F.
Qed.

Lemma group_keys_sorted (df : dataframe) : StronglySorted text_lt (group_keys df).
Proof.
  unfold group_keys. induction df as [|ir df IH]; cbn [fold_right].
  - constructor.
  - destruct (month (snd ir)); [now apply insert_key_sorted|exact IH].
Qed.

Lemma sorted_nodup keys : StronglySorted text_lt keys -> NoDup keys.
Proof.
  induction 1 as [|h t S IH F]; constructor; [|exact IH].
  intros I. rewrite Forall_forall in F.
  exact (OrderedTypeEx.String_as_OT.lt_not_eq _ _ (F h I) eq_refl).
Qed.

Lemma to_datetime_ym_length rows out :
  to_datetime_ym rows = Some out -> List.length out = List.length rows.
Proof.
  revert out. induction rows as [|[k t] rows IH]; intros out H.
  - now inversion H.
  - cbn [to_datetime_ym] in H. destruct (parse_year_month k); [|discriminate H].
    destruct (to_datetime_ym rows) as [rest|]; [|discriminate H].
    inversion H. cbn. now rewrite (IH rest eq_refl).
Qed.

Lemma insert_sorted_length x l :
  List.length (insert_sorted x l) = S (List.length l).
Proof.
  induction l as [|h t IH]; cbn [insert_sorted]; [reflexivity|].
  destruct (ym_leb (fst x) (fst h)); cbn; [reflexivity|now rewrite IH].
Qed.

Lemma sort_values_length l : List.length (sort_values l) = List.length l.
Proof.
  unfold sort_values. induction l as [|x l IH]; cbn [fold_right]; [reflexivity|].
  rewrite insert_sorted_length. cbn. now rewrite IH.
Qed.

(** X17.  The chart has one point for each distinct month text among
    the records: the groups are the months that occur, each once and in
    increasing order of their text, and a chart that is drawn has as
    many points as there are groups. *)
Theorem one_point_per_month (df : dataframe) :
  NoDup (group_keys df)
  /\ StronglySorted text_lt (group_keys df)
  /\ (forall k, In k (group_keys df)
                <-> exists ir, In ir df /\ month (snd ir) = Some k)
  /\ match chart df with
     | LineChart series => List.length series = List.length (group_keys df)
     | _ => True
     end.
Proof.
  split; [apply sorted_nodup, group_keys_sorted|].
  split; [apply group_keys_sorted|]. split; [intros k; apply group_keys_in|].
  unfold chart. destruct (nonempty df); [|exact Logic.I].
  destruct (to_datetime_ym (monthly_totals df)) as [chart_df|] eqn:T;
    [|exact Logic.I].
  rewrite sort_values_length, (to_datetime_ym_length _ _ T).
  unfold monthly_totals. apply length_map.
Qed.

Lemma month_options_parse m :
  In m App.month_options -> parse_year_month m <> None.
Proof.
  assert (A : forallb (fun m => match parse_year_month m with
                                | Some _ => true
                                | None => false
                                end) App.month_options = true)
    by (vm_compute; reflexivity).
  rewrite forallb_forall in A. intros I. specialize (A m I).
  now destruct (parse_year_month m).
Qed.

(** X18.  While a selection of months is active the chart never shows
    the warning: every month the sidebar offers matches the format of
    the chart, so every record the selection keeps can be charted. *)
Theorem month_selection_never_warns q ms t u (df : dataframe) :
  ms <> [] -> incl ms App.month_options ->
  chart (filter_chain q ms t u df) <> ChartWarning.
Proof.
  intros Ne Inc. unfold chart.
  destruct (nonempty (filter_chain q ms t u df)); [|discriminate].
  destruct (to_datetime_ym (monthly_totals (filter_chain q ms t u df))) eqn:T;
    [discriminate|].
  exfalso. apply to_datetime_ym_none in T. destruct T as (k & I & P).
  rewrite monthly_totals_keys in I. apply group_keys_in in I.
  destruct I as (ir & I & M). rewrite chain_as_select in I.
  apply filter_In in I. destruct I as [_ A]. unfold all_tests in A.
  assert (N : nonempty ms = true) by (destruct ms; [now destruct Ne|reflexivity]).
  rewrite N in A. apply andb_prop in A. destruct A as [A _].
  apply andb_prop in A. destruct A as [A _]. apply andb_prop in A.
  destruct A as [_ A]. unfold month_isin in A. rewrite M in A.
  apply existsb_exists in A. destruct A as (m & Im & E).
  apply String.eqb_eq in E. subst m.
  exact (month_options_parse k (Inc k Im) P).
Qed.

Lemma month_selection_never_warns_witness :
  incl ["2025-04"] App.month_options
  /\ chart (filter_chain EmptyString ["2025-04"] false false Samples.mixed_months)
     <> ChartWarning.
Proof.
  assert (I : incl ["2025-04"] App.month_options).
  { intros m [<-|[]]. vm_compute. do 27 right. left. reflexivity. }
  split; [exact I|].
  apply month_selection_never_warns; [discriminate|exact I].
Defined.

Lemma insert_sorted_labels x l :
  map fst (insert_sorted x l) = insert_label (fst x) (map fst l).
Proof.
  induction l as [|h t IH]; [reflexivity|].
  cbn [insert_sorted map insert_label].
  destruct (ym_leb (fst x) (fst h)); cbn [map]; [reflexivity|now rewrite IH].
Qed.

Lemma sort_values_labels l :
  map fst (sort_values l) = fold_right insert_label [] (map fst l).
Proof.
  unfold sort_values. induction l as [|x l IH]; [reflexivity|].
  cbn [fold_right map]. now rewrite insert_sorted_labels, IH.
Qed.

Lemma to_datetime_ym_keys rows :
  option_map (map fst) (to_datetime_ym rows) = read_keys (map fst rows).
Proof.
  induction rows as [|[k t] rows IH]; [reflexivity|].
  cbn [to_datetime_ym map fst read_keys]. rewrite <- IH.
  destruct (parse_year_month k); [|reflexivity].
  now destruct (to_datetime_ym rows).
Qed.

Lemma charted_by_keys (df : dataframe) :
  charted (chart df) = if nonempty df then labels_of (group_keys df) else [].
Proof.
  unfold chart, labels_of. destruct (nonempty df); [|reflexivity].
  rewrite <- monthly_totals_keys, <- to_datetime_ym_keys.
  destruct (to_datetime_ym (monthly_totals df)) as [chart_df|]; [|reflexivity].
  cbn [charted option_map]. apply sort_values_labels.
Qed.

Lemma sorted_same_members l1 :
  forall l2,
    StronglySorted text_lt l1 -> StronglySorted text_lt l2 ->
    (forall k, In k l1 <-> In k l2) -> l1 = l2.
Proof.
  induction l1 as [|h1 t1 IH]; intros l2 S1 S2 M.
  - destruct l2 as [|h2 t2]; [reflexivity|].
    destruct (proj2 (M h2) (or_introl eq_refl)).
  - destruct l2 as [|h2 t2]; [destruct (proj1 (M h1) (or_introl eq_refl))|].
    apply StronglySorted_inv in S1. destruct S1 as [S1 F1].
    apply StronglySorted_inv in S2. destruct S2 as [S2 F2].
    rewrite Forall_forall in F1, F2.
    assert (E : h1 = h2).
    { destruct (proj1 (M h1) (or_introl eq_refl)) as [E|I2]; [now symmetry|].
      destruct (proj2 (M h2) (or_introl eq_refl)) as [E|I1]; [exact E|].
      exfalso.
      exact (OrderedTypeEx.String_as_OT.lt_not_eq _ _
               (OrderedTypeEx.String_as_OT.lt_trans _ _ _ (F1 h2 I1) (F2 h1 I2))
               eq_refl). }
    subst h2. f_equal. apply IH; [exact S1|exact S2|].
    intros k. split; intros I.
    + destruct (proj1 (M k) (or_intror I)) as [E|I2]; [|exact I2].
      subst k. exfalso.
      exact (OrderedTypeEx.String_as_OT.lt_not_eq _ _ (F1 h1 I) eq_refl).
    + destruct (proj2 (M k) (or_intror I)) as [E|I1]; [|exact I1].
      subst k. exfalso.
      exact (OrderedTypeEx.String_as_OT.lt_not_eq _ _ (F2 h1 I) eq_refl).
Qed.

(** X19.  The months on the chart do not depend on the order of the
    records: two frames with the same rows in any order give charts
    with the same month labels (the totals are sums of floats and may
    differ in their rounding). *)
Theorem chart_months_ignore_row_order (df df' : dataframe) :
  Permutation.Permutation df df' ->
  charted (chart df) = charted (chart df').
Proof.
  intros P. rewrite !charted_by_keys.
  assert (K : group_keys df = group_keys df').
  { apply sorted_same_members; try apply group_keys_sorted.
    intros k. rewrite !group_keys_in. split; intros (ir & I & M); exists ir;
      (split; [|exact M]).
    - exact (Permutation.Permutation_in _ P I).
    - exact (Permutation.Permutation_in _ (Permutation.Permutation_sym P) I). }
  rewrite K. destruct df as [|ir df].
  - apply Permutation.Permutation_nil in P. now subst df'.
  - destruct df' as [|ir' df']; [|reflexivity].
    apply Permutation.Permutation_sym, Permutation.Permutation_nil in P.
    discriminate P.
Qed.

Lemma chart_months_witness :
  Permutation.Permutation MoreSamples.two_months (rev MoreSamples.two_months)
  /\ charted (chart MoreSamples.two_months) = [(2025, 3); (2025, 4)]
  /\ charted (chart MoreSamples.two_months)
     = charted (chart (rev MoreSamples.two_months)).
Proof.
  assert (P : Permutation.Permutation MoreSamples.two_months
                (rev MoreSamples.two_months)) by apply Permutation.Permutation_rev.
  split; [exact P|]. split; [vm_compute; reflexivity|].
  exact (chart_months_ignore_row_order _ _ P).
Defined.

End ChartLaws.

(** ** The session and the whole script *)

Module AppLaws.

Import PyStr Pandas Effects Records Props Notions App UploadLaws.

Lemma credentials_ok_known s name password :
  credentials_ok s name password = true ->
  (name = "admin" /\ hash_password s password = hash_password s "letmein123")
  \/ (name = "user" /\ hash_password s password = hash_password s "user123").
Proof.
  unfold credentials_ok, USER_CREDENTIALS. cbn [dict_get].
  destruct (String.eqb_spec name "admin") as [->|_].
  - intros H. apply String.eqb_eq in H. now left.
  - destruct (String.eqb_spec name "user") as [->|_]; [|discriminate].
    intros H. apply String.eqb_eq in H. now right.
Qed.

Lemma script_session s inp a :
  session (fst (script s inp a))
  = match authentication_status (session a) with
    | PyTrue => session a
    | _ => fst (login s inp (session a))
    end.
Proof.
  unfold script. destruct (authentication_status (session a)).
  - now destruct (login s inp (session a)).
  - destruct (create_engine s (db_url (host s))); [|reflexivity].
    destruct (upload_section s inp a) as [[e|u] db1]; [reflexivity|].
    now destruct (load_data s _ db1) as [[rows|] c].
  - now destruct (login s inp (session a)).
Qed.

Lemma login_keeps_ok s inp ss :
  authentication_status ss <> PyTrue ->
  session_ok ss -> session_ok (fst (login s inp ss)).
Proof.
  unfold login, session_ok. intros N H.
  destruct (login_submitted inp); [|exact H].
  destruct (credentials_ok s (login_username inp) (login_password inp)) eqn:C;
    cbn [fst authentication_status username].
  - destruct (credentials_ok_known _ _ _ C) as [[-> _]|[-> _]]; auto.
  - destruct (authentication_status ss); [exact H|now destruct N|exact H].
Qed.

Lemma script_keeps_ok s inp a :
  session_ok (session a) -> session_ok (session (fst (script s inp a))).
Proof.
  intros H. rewrite script_session.
  destruct (authentication_status (session a)) eqn:A; [|exact H|];
    apply login_keeps_ok; congruence.
Qed.

(** X20.  Whatever is done to the widgets, from the first load on, a
    session names a user exactly when it is authenticated, and then the
    user is [admin] or [user]: nobody else ever gets in, and a failed
    login leaves no name behind. *)
Theorem sessions_name_known_users s inps st :
  session_ok (session (runs s inps (fresh st))).
Proof.
  assert (G : forall a, session_ok (session a) -> session_ok (session (runs s inps a))).
  { unfold runs. induction inps as [|inp inps IH]; intros a H; [exact H|].
    cbn [fold_left]. apply IH, script_keeps_ok, H. }
  apply G. reflexivity.
Qed.

Lemma upload_section_state s inp a :
  exists u, fst (upload_section s inp a) = inr u.
Proof.
  unfold upload_section.
  destruct (String.eqb (username (session a)) "admin" && submit_upload inp);
    [|now exists tt].
  destruct (submit_upload_cases (host s) (uploaded_file inp) (upload_month inp) (db a))
    as [(msg & E)|(b & st1 & msg & _ & _ & _ & E)]; rewrite E; now exists tt.
Qed.

Lemma script_db s inp a :
  db (fst (script s inp a)) = db a
  \/ (authentication_status (session a) = PyTrue
      /\ username (session a) = "admin").
Proof.
  unfold script. destruct (authentication_status (session a)) eqn:A.
  - left. now destruct (login s inp (session a)).
  - destruct (create_engine s (db_url (host s))); [|now left].
    unfold upload_section.
    destruct (String.eqb_spec (username (session a)) "admin") as [E|N].
    + right. now split.
    + left. cbn [andb]. now destruct (load_data s _ (db a)) as [[rows|] c].
  - left. now destruct (login s inp (session a)).
Qed.

Lemma becomes_admin s inp a :
  authentication_status (session a) <> PyTrue ->
  authentication_status (session (fst (script s inp a))) = PyTrue ->
  username (session (fst (script s inp a))) = "admin" ->
  admin_login s inp.
Proof.
  intros N T U. rewrite script_session in T, U.
  assert (L : authentication_status (fst (login s inp (session a))) = PyTrue
              /\ username (fst (login s inp (session a))) = "admin").
  { destruct (authentication_status (session a)); [now split|now destruct N|now split]. }
  clear T U. destruct L as [T U]. unfold login in T, U. unfold admin_login.
  destruct (login_submitted inp); [|cbn [fst] in T; contradiction].
  destruct (credentials_ok s (login_username inp) (login_password inp)) eqn:C;
    cbn [fst authentication_status username] in T, U; [|discriminate T].
  destruct (credentials_ok_known _ _ _ C) as [[_ H]|[E _]].
  - now repeat split.
  - rewrite U in E. discriminate E.
Qed.

(** X21.  The store is written on the administrator's login only: after
    any sequence of runs from the first load, either the store and the
    messages are exactly as they were, or one of the runs was a login
    as [admin] with a password that hashes as the administrator's
    does. *)
Theorem only_admin_login_changes_store s inps st :
  db (runs s inps (fresh st)) = st
  \/ exists inp, In inp inps /\ admin_login s inp.
Proof.
  assert (G : forall later a,
             (db a = st \/ exists inp, In inp inps /\ admin_login s inp) ->
             (authentication_status (session a) = PyTrue ->
              username (session a) = "admin" ->
              exists inp, In inp inps /\ admin_login s inp) ->
             incl later inps ->
             db (runs s later a) = st
             \/ exists inp, In inp inps /\ admin_login s inp).
  { unfold runs. induction later as [|inp later IH]; intros a D A Inc; [exact D|].
    cbn [fold_left]. apply IH.
    - destruct D as [D|D]; [|now right].
      destruct (script_db s inp a) as [E|[T U]]; [left; congruence|].
      right. now apply A.
    - intros T U.
      destruct (authentication_status (session a)) eqn:S.
      + exists inp. split; [apply Inc; now left|].
        apply (becomes_admin s inp a); congruence.
      + apply A; [reflexivity|]. rewrite script_session, S in U. exact U.
      + exists inp. split; [apply Inc; now left|].
        apply (becomes_admin s inp a); congruence.
    - intros x I. apply Inc. now right. }
  apply G; [now left|discriminate|apply incl_refl].
Qed.

Lemma script_cache_warm s inp a rows :
  authentication_status (session a) = PyTrue ->
  create_engine s (db_url (host s)) = true ->
  cache a = Some rows -> refresh_data inp = false ->
  cache (fst (script s inp a)) = Some rows
  /\ session (fst (script s inp a)) = session a
  /\ snd (script s inp a)
     = DashboardPage (String.eqb (username (session a)) "admin")
         (render (search_input inp) (month_range inp) (show_only_tds inp)
            (show_only_uncredited inp) rows).
Proof.
  intros T E C R. unfold script. rewrite T, E, R, C.
  destruct (upload_section_state s inp a) as (u & U).
  destruct (upload_section s inp a) as [[e|u'] db1]; [discriminate U|].
  cbn [load_data fst snd cache session]. now repeat split.
Qed.

(** X22.  Uploads stay invisible until the data is refreshed: once the
    records are cached, every later run in which the refresh button is
    not pressed shows the cached records, filtered as asked, whatever
    has been uploaded in that run or before. *)
Theorem uploads_invisible_until_refresh s inps inp a rows :
  authentication_status (session a) = PyTrue ->
  create_engine s (db_url (host s)) = true ->
  cache a = Some rows ->
  Forall (fun i => refresh_data i = false) (inps ++ [inp]) ->
  snd (script s inp (runs s inps a))
  = DashboardPage (String.eqb (username (session a)) "admin")
      (render (search_input inp) (month_range inp) (show_only_tds inp)
         (show_only_uncredited inp) rows).
Proof.
  intros T E C F. apply Forall_app in F. destruct F as [F Fi].
  apply Forall_inv in Fi.
  assert (G : cache (runs s inps a) = Some rows
              /\ session (runs s inps a) = session a).
  { revert a T C. unfold runs. induction F as [|i inps R F IH]; intros a T C;
      [now split|].
    cbn [fold_left].
    destruct (script_cache_warm s i a rows T E C R) as (C' & S' & _).
    destruct (IH (fst (script s i a))) as [C2 S2]; [congruence|exact C'|].
    split; [exact C2|congruence]. }
  destruct G as [C' S'].
  destruct (script_cache_warm s inp (runs s inps a) rows) as (_ & _ & V);
    [congruence|exact E|exact C'|exact Fi|].
  now rewrite V, S'.
Qed.

Lemma uploads_invisible_witness :
  let s := MoreSamples.site_on (Samples.machine Samples.two_rows true) [] in
  let a := MoreSamples.admin_session [Samples.row "u1" (Some "2025-04") 100] in
  List.length (payouts (db (runs s [MoreSamples.uploading] a))) = 1%nat
  /\ snd (script s MoreSamples.untouched (runs s [MoreSamples.uploading] a))
     = DashboardPage true
         (render EmptyString [] false false [Samples.row "u1" (Some "2025-04") 100]).
Proof.
  cbv zeta. split; [vm_compute; reflexivity|].
  apply (uploads_invisible_until_refresh
           (MoreSamples.site_on (Samples.machine Samples.two_rows true) [])
           [MoreSamples.uploading] MoreSamples.untouched
           (MoreSamples.admin_session [Samples.row "u1" (Some "2025-04") 100]));
    try reflexivity.
  repeat constructor.
Defined.

(** X23.  A run in which the refresh button is pressed shows what the
    store holds after that run's own upload, and caches it. *)
Theorem refresh_shows_the_store s inp a rows :
  authentication_status (session a) = PyTrue ->
  create_engine s (db_url (host s)) = true ->
  refresh_data inp = true ->
  read_sql s (db (fst (script s inp a))) = Some rows ->
  cache (fst (script s inp a)) = Some rows
  /\ snd (script s inp a)
     = DashboardPage (String.eqb (username (session a)) "admin")
         (render (search_input inp) (month_range inp) (show_only_tds inp)
            (show_only_uncredited inp) rows).
Proof.
  intros T E R. unfold script. rewrite T, E, R.
  destruct (upload_section_state s inp a) as (u & U).
  destruct (upload_section s inp a) as [[e|u'] db1]; [discriminate U|].
  cbn [load_data].
  destruct (read_sql s db1) as [rows'|] eqn:Q; cbn [fst snd db cache].
  - rewrite Q. intros X. inversion X; subst. now split.
  - rewrite Q. discriminate.
Qed.

Lemma refresh_shows_the_store_witness :
  let s := MoreSamples.site_on (Samples.machine Samples.two_rows true)
             [Samples.row "u2" (Some "2025-05") 250] in
  let a := MoreSamples.admin_session [Samples.row "u1" (Some "2025-04") 100] in
  let inp := {| login_username := EmptyString; login_password := EmptyString;
                login_submitted := false; uploaded_file := None;
                upload_month := EmptyString; submit_upload := false;
                search_input := EmptyString; refresh_data := true;
                month_range := []; show_only_tds := false;
                show_only_uncredited := false |} in
  cache (fst (script s inp a)) = Some [Samples.row "u2" (Some "2025-05") 250]
  /\ snd (script s inp a)
     = DashboardPage true
         (render EmptyString [] false false [Samples.row "u2" (Some "2025-05") 250]).
Proof.
  cbv zeta.
  apply (refresh_shows_the_store
           (MoreSamples.site_on (Samples.machine Samples.two_rows true)
              [Samples.row "u2" (Some "2025-05") 250]));
    reflexivity.
Defined.

End AppLaws.

(** ** More on the currency step *)

Module CurrencyLaws.

Import PyStr Pandas Ingest Props Notions.

Lemma remove_char_app a s t :
  remove_char a (s ++ t) = remove_char a s ++ remove_char a t.
Proof.
  induction s as [|c s IH]; [reflexivity|].
  cbn [append remove_char]. destruct (Ascii.eqb c a); cbn [append]; now rewrite IH.
Qed.

Lemma remove_char_gone a s :
  all_chars (fun c => negb (Ascii.eqb c a)) (remove_char a s) = true.
Proof.
  induction s as [|c s IH]; [reflexivity|].
  cbn [remove_char]. destruct (Ascii.eqb c a) eqn:E; [exact IH|].
  cbn [all_chars]. now rewrite E, IH.
Qed.

(** X24.  The currency step drops commas wherever they stand, not only
    between groups of three digits: a cell reads the same with a comma
    put in at any place, and no comma is left in the text that is
    read. *)
Theorem commas_dropped_anywhere (s t : string) :
  clean_number (CStr (s ++ String "," t)) = clean_number (CStr (s ++ t))
  /\ all_chars (fun c => negb (Ascii.eqb c ",")) (clean_number (CStr (s ++ t))) = true.
Proof.
  unfold clean_number. cbn [py_str]. split; [|apply remove_char_gone].
  rewrite !remove_char_app. reflexivity.
Qed.

(** *** Integer cells *)

Lemma digit_char_code d :
  0 <= d < 10 -> is_digit (digit_char d) = true /\ code (digit_char d) - 48 = d.
Proof.
  intros H.
  assert (E : d = 0 \/ d = 1 \/ d = 2 \/ d = 3 \/ d = 4 \/ d = 5 \/ d = 6
              \/ d = 7 \/ d = 8 \/ d = 9) by lia.
  repeat (destruct E as [->|E]; [now vm_compute|]). subst d. now vm_compute.
Qed.

Lemma scan_digit d tail a k :
  0 <= d < 10 ->
  PyFloat.scan_digits (String (digit_char d) tail) a k
  = PyFloat.scan_digits tail (10 * a + d) (k + 1).
Proof.
  intros H. destruct (digit_char_code d H) as [D C].
  cbn [PyFloat.scan_digits]. now rewrite D, C.
Qed.

Lemma scan_digits_of_pos fuel :
  forall n tail k,
    0 <= n < 2 ^ Z.of_nat fuel -> (0 < fuel)%nat ->
    exists d, 0 < d
              /\ PyFloat.scan_digits (digits_of_pos fuel n tail) 0 k
                 = PyFloat.scan_digits tail n (k + d).
Proof.
  induction fuel as [|fuel IH]; intros n tail k H F; [lia|].
  cbn [digits_of_pos].
  assert (M : 0 <= n mod 10 < 10) by (apply Z.mod_pos_bound; lia).
  destruct (Z.eqb_spec (n / 10) 0) as [E|E].
  - exists 1. split; [lia|]. rewrite (scan_digit _ _ _ _ M).
    replace (10 * 0 + n mod 10) with n; [reflexivity|].
    pose proof (Z.div_mod n 10). lia.
  - assert (Q : 0 < n / 10) by (pose proof (Z.div_pos n 10); lia).
    assert (B : n / 10 < 2 ^ Z.of_nat fuel).
    { rewrite Nat2Z.inj_succ, Z.pow_succ_r in H by lia.
      apply Z.div_lt_upper_bound; lia. }
    assert (P : (0 < fuel)%nat).
    { destruct fuel; [cbn in B; lia|lia]. }
    destruct (IH (n / 10) (String (digit_char (n mod 10)) tail) k) as (d & D & S);
      [lia|exact P|].
    exists (d + 1). split; [lia|]. rewrite S, (scan_digit _ _ _ _ M).
    replace (10 * (n / 10) + n mod 10) with n by (pose proof (Z.div_mod n 10); lia).
    now rewrite Z.add_assoc.
Qed.

Lemma scan_digits_digits n k :
  0 <= n ->
  exists d, 0 < d
            /\ PyFloat.scan_digits (digits n) 0 k = (n, k + d, EmptyString).
Proof.
  intros H. unfold digits.
  destruct (scan_digits_of_pos (S (Z.to_nat (Z.log2 n))) n EmptyString k)
    as (d & D & S); [|lia|now exists d].
  split; [exact H|].
  rewrite Nat2Z.inj_succ, Z2Nat.id by apply Z.log2_nonneg.
  destruct (Z.eq_dec n 0) as [->|N]; [now vm_compute|].
  apply Z.log2_spec. lia.
Qed.

Lemma digits_of_pos_chars fuel :
  forall n tail, all_chars is_digit tail = true ->
                 all_chars is_digit (digits_of_pos fuel n tail) = true.
Proof.
  induction fuel as [|fuel IH]; intros n tail T; [exact T|].
  cbn [digits_of_pos].
  assert (A : all_chars is_digit (String (digit_char (n mod 10)) tail) = true).
  { cbn [all_chars]. rewrite T, andb_true_r.
    destruct (Z.eq_dec 10 0) as [X|X]; [discriminate X|].
    apply digit_char_code, Z.mod_pos_bound. lia. }
  destruct (n / 10 =? 0); [exact A|now apply IH].
Qed.

Lemma digits_chars n : all_chars is_digit (digits n) = true.
Proof. unfold digits. now apply digits_of_pos_chars. Qed.

Lemma digits_of_pos_nonempty fuel n tail :
  (0 < fuel)%nat -> digits_of_pos fuel n tail <> EmptyString.
Proof.
  revert n tail. induction fuel as [|fuel IH]; intros n tail F; [lia|].
  cbn [digits_of_pos]. destruct (n / 10 =? 0); [discriminate|].
  destruct fuel; [cbn; discriminate|]. apply IH. lia.
Qed.

Lemma digit_facts c :
  is_digit c = true ->
  Ascii.eqb c "_" = false /\ Ascii.eqb c "," = false
  /\ PyFloat.is_float_space c = false /\ lower_char c = c
  /\ c <> "-"%char /\ c <> "+"%char /\ c <> "i"%char /\ c <> "n"%char.
Proof.
  destruct c as [[] [] [] [] [] [] [] []]; vm_compute; intros H;
    try discriminate H; repeat split; discriminate.
Qed.

Lemma drop_underscores_digits s prev :
  all_chars is_digit s = true -> Ascii.eqb prev "_" = false ->
  PyFloat.drop_underscores prev s = Some s.
Proof.
  revert prev. induction s as [|c s IH]; intros prev A P.
  - cbn. now rewrite P.
  - cbn [all_chars] in A. apply andb_prop in A. destruct A as [C A].
    destruct (digit_facts c C) as (U & _). cbn [PyFloat.drop_underscores].
    rewrite U, P. cbn [andb]. now rewrite (IH c A U).
Qed.

Lemma rskip_cons c t :
  PyFloat.is_float_space c = false ->
  PyFloat.rskip (String c t) = String c (PyFloat.rskip t).
Proof.
  intros S. cbn [PyFloat.rskip]. rewrite S. now destruct (PyFloat.rskip t).
Qed.

Lemma rskip_digits s : all_chars is_digit s = true -> PyFloat.rskip s = s.
Proof.
  induction s as [|c s IH]; intros A; [reflexivity|].
  cbn [all_chars] in A. apply andb_prop in A. destruct A as [C A].
  destruct (digit_facts c C) as (_ & _ & S & _).
  cbn [PyFloat.rskip]. rewrite (IH A), S. now destruct s.
Qed.

Lemma remove_commas_digits s :
  all_chars is_digit s = true -> remove_char "," s = s.
Proof.
  induction s as [|c s IH]; intros A; [reflexivity|].
  cbn [all_chars] in A. apply andb_prop in A. destruct A as [C A].
  destruct (digit_facts c C) as (_ & E & _).
  cbn [remove_char]. now rewrite E, (IH A).
Qed.

(** The text of a non-negative integer, with or without a minus sign
    before it, reads as that integer. *)
Lemma float_of_digits n (neg : bool) :
  0 <= n ->
  PyFloat.of_string (if neg then String "-" (digits n) else digits n)
  = Some (PyFloat.of_decimal neg n 0).
Proof.
  intros H. pose proof (digits_chars n) as A.
  assert (Ne : digits n <> EmptyString)
    by (unfold digits; apply digits_of_pos_nonempty; lia).
  destruct (scan_digits_digits n 0 H) as (d & Dp & Sc).
  destruct (digits n) as [|c s] eqn:D; [now destruct Ne|].
  assert (C : is_digit c = true) by (cbn in A; now apply andb_prop in A).
  destruct (digit_facts c C) as (U & _ & S & L & Nm & Np & Ni & Nn).
  unfold PyFloat.of_string.
  assert (E1 : PyFloat.drop_underscores Ascii.zero
                 (if neg then String "-" (String c s) else String c s)
               = Some (if neg then String "-" (String c s) else String c s)).
  { destruct neg.
    - change (PyFloat.drop_underscores Ascii.zero (String "-" (String c s)))
        with (option_map (String "-")
                (PyFloat.drop_underscores "-" (String c s))).
      now rewrite (drop_underscores_digits (String c s) "-" A eq_refl).
    - apply drop_underscores_digits; [exact A|reflexivity]. }
  rewrite E1.
  assert (E2 : PyFloat.scan_sign
                 (PyFloat.lskip (PyFloat.rskip
                    (if neg then String "-" (String c s) else String c s)))
               = (neg, String c s)).
  { destruct neg.
    - rewrite rskip_cons by reflexivity. rewrite (rskip_digits _ A). reflexivity.
    - rewrite (rskip_digits _ A). cbn [PyFloat.lskip]. rewrite S.
      unfold PyFloat.scan_sign.
      destruct c as [[] [] [] [] [] [] [] []]; try reflexivity;
        solve [now destruct Nm | now destruct Np]. }
  rewrite E2. cbn [lower]. rewrite L.
  assert (E3 : String.eqb (String c (lower s)) "inf" = false
               /\ String.eqb (String c (lower s)) "infinity" = false
               /\ String.eqb (String c (lower s)) "nan" = false).
  { cbn [String.eqb].
    destruct (Ascii.eqb_spec c "i") as [X|_]; [now destruct Ni|].
    destruct (Ascii.eqb_spec c "n") as [X|_]; [now destruct Nn|]. now repeat split. }
  destruct E3 as (-> & -> & ->). cbn [orb].
  unfold PyFloat.scan_decimal. rewrite Sc. cbn [PyFloat.scan_exponent].
  replace (0 <? 0 + d + 0) with true by (symmetry; apply Z.ltb_lt; lia).
  now rewrite Z.sub_0_r.
Qed.

(** X25.  An integer cell of a currency column goes through the text
    [str] makes of it and comes out as the float read from its decimal
    digits, with its sign: printing and reading back loses nothing but
    what binary64 cannot hold. *)
Theorem integer_cell_as_float (n : Z) :
  PyFloat.of_string (clean_number (CInt n))
  = Some (PyFloat.of_decimal (n <? 0) (Z.abs n) 0).
Proof.
  unfold clean_number. cbn [py_str]. unfold of_int.
  destruct (Z.ltb_spec n 0) as [N|N].
  - cbn [remove_char]. cbn [Ascii.eqb Bool.eqb].
    rewrite (remove_commas_digits _ (digits_chars _)).
    rewrite (float_of_digits (- n) true) by lia. now rewrite Z.abs_neq by lia.
  - rewrite (remove_commas_digits _ (digits_chars _)).
    rewrite (float_of_digits n false) by lia. now rewrite Z.abs_eq by lia.
Qed.

End CurrencyLaws.
